(** * mwpersistence: [persistence2stats]

    A shallow embedding of [mwpersistence/utilities/persistence2stats.py]
    and the properties of its revision statistics.

    The Python code works on JSON documents (nested [dict]s), raises
    exceptions on malformed input, writes progress dots to [sys.stderr] and
    accumulates binary64 sums.  The embedding keeps all four: documents are
    [value]s whose objects are finite maps, the code runs in a small
    exception-and-stderr monad [Py], and floats are [spec_float]s with the
    IEEE 754 binary64 parameters. *)

From Stdlib Require Import ZArith Lia Bool List Permutation.
From Stdlib Require Import SpecFloat.
From stdpp Require Import gmap strings list fin_maps.

Set Warnings "-register-all".
Local Open Scope Z_scope.

(** ** Python values *)

(** A Python [float] is an IEEE 754 binary64. *)
Abbreviation float := spec_float.

Definition prec : Z := 53.
Definition emax : Z := 1024.

Definition SF64add : float -> float -> float := SFadd prec emax.

(** [float(z)] for an [int] in range: round to nearest, ties to even. *)
Definition Z2SF (z : Z) : float := binary_normalize prec emax z 0 false.

(** Python's two numeric types ([bool] is coerced to [int] where a number is
    needed, see [to_number]). *)
Inductive number :=
| Int (z : Z)
| Float (f : float).

(** JSON documents after [json.loads]. *)
Inductive value :=
| VNone
| VBool (b : bool)
| VNum (n : number)
| VStr (s : string)
| VList (l : list value)
| VDict (d : gmap string value).

Abbreviation VInt z := (VNum (Int z)).
Abbreviation VFloat f := (VNum (Float f)).

(** The exceptions the code can raise. *)
Inductive exn :=
| KeyError (k : string)
| TypeError
| ValueError
| OverflowError
| AttributeError.

(** ** The monad of the embedding

    A computation reads and extends what was written to [sys.stderr] and
    either raises or returns. *)

Definition stderr := list string.

Definition Py (A : Type) : Type := stderr -> (exn + A) * stderr.

Definition ret {A} (a : A) : Py A := fun err => (inr a, err).

Definition raise {A} (e : exn) : Py A := fun err => (inl e, err).

Definition bind {A B} (m : Py A) (k : A -> Py B) : Py B :=
  fun err =>
    match m err with
    | (inl e, err') => (inl e, err')
    | (inr a, err') => k a err'
    end.

(** [sys.stderr.write(s); sys.stderr.flush()] *)
Definition write (s : string) : Py unit := fun err => (inr tt, err ++ [s]).

(** ["\n"] *)
Definition newline : string := String (Ascii.ascii_of_nat 10) EmptyString.

Notation "x <- m ;; k" := (bind m (fun x => k))
  (at level 100, m at next level, right associativity).
Notation "m ;;; k" := (bind m (fun _ => k))
  (at level 100, right associativity).

(** ** Python operations on values *)

(** [v[k]] for a string key [k]. *)
Definition getitem (v : value) (k : string) : Py value :=
  match v with
  | VDict d =>
      match d !! k with
      | Some x => ret x
      | None => raise (KeyError k)
      end
  | _ => raise TypeError
  end.

(** The elements [for t in v] visits.  A [dict] iterates over its keys, a
    [str] over its characters. *)
Definition py_iter (v : value) : Py (list value) :=
  match v with
  | VList l => ret l
  | VDict d => ret (VStr <$> (map_to_list d).*1)
  | VStr s =>
      ret ((fun c => VStr (String c EmptyString)) <$>
             String.list_ascii_of_string s)
  | _ => raise TypeError
  end.

(** The operand of an arithmetic operator or an ordering comparison against
    an [int]. *)
Definition to_number (v : value) : Py number :=
  match v with
  | VNum n => ret n
  | VBool b => ret (Int (Z.b2z b))
  | _ => raise TypeError
  end.

Definition SFone : float := Z2SF 1.

(** [n + 1] *)
Definition add1 (n : number) : number :=
  match n with
  | Int z => Int (z + 1)
  | Float f => Float (SF64add f SFone)
  end.

(** The exact comparison of a number with an [int]; [None] for a NaN. *)
Definition SFcompare_Z (f : float) (z : Z) : option comparison :=
  match f with
  | S754_nan => None
  | S754_infinity s => Some (if s then Lt else Gt)
  | S754_zero _ => Some (0 ?= z)
  | S754_finite s m e =>
      match e with
      | Zneg p => Some (cond_Zopp s (Zpos m) ?= z * 2 ^ Zpos p)
      | _ => Some (cond_Zopp s (Zpos m) * 2 ^ e ?= z)
      end
  end.

Definition compare_Z (n : number) (z : Z) : option comparison :=
  match n with
  | Int a => Some (a ?= z)
  | Float f => SFcompare_Z f z
  end.

(** [n >= z] *)
Definition ge_Z (n : number) (z : Z) : bool :=
  match compare_Z n z with
  | Some (Gt | Eq) => true
  | _ => false
  end.

(** [n < z] *)
Definition lt_Z (n : number) (z : Z) : bool :=
  match compare_Z n z with
  | Some Lt => true
  | _ => false
  end.

(** [int(n)]: a float is truncated towards zero. *)
Definition py_int (n : number) : Py Z :=
  match n with
  | Int z => ret z
  | Float (S754_zero _) => ret 0
  | Float (S754_finite s m e) => ret (cond_Zopp s (Z.shiftl (Zpos m) e))
  | Float (S754_infinity _) => raise OverflowError
  | Float S754_nan => raise ValueError
  end.

(** [acc + f] where [f] is a float: an [int] accumulator is converted. *)
Definition add_float (acc : number) (f : float) : number :=
  match acc with
  | Int z => Float (SF64add (Z2SF z) f)
  | Float g => Float (SF64add g f)
  end.

(** [math.log] is the C library's.  It is a parameter of the embedding: its
    value at a number inside its domain. *)
Class MathLib := { log : number -> float }.

Section Persistence2Stats.

Context `{MathLib}.

(** [math.log(n)]: a [ValueError] outside the domain, NaN at NaN. *)
Definition py_log (n : number) : Py float :=
  match n with
  | Int z => if 0 <? z then ret (log n) else raise ValueError
  | Float S754_nan => ret S754_nan
  | Float f =>
      if SFltb (S754_zero false) f then ret (log n) else raise ValueError
  end.

(** ** [persistence2stats] *)

Record stats_doc := {
  tokens_added : Z;
  persistent_tokens : Z;
  non_self_persistent_tokens : Z;
  sum_log_persisted : number;
  sum_log_non_self_persisted : number;
  sum_log_seconds_visible : number;
  censored : bool;
  non_self_censored : bool
}.

(** The literal of lines 132-141. *)
Definition stats_init : stats_doc := {|
  tokens_added := 0;
  persistent_tokens := 0;
  non_self_persistent_tokens := 0;
  sum_log_persisted := Int 0;
  sum_log_non_self_persisted := Int 0;
  sum_log_seconds_visible := Int 0;
  censored := false;
  non_self_censored := false
|}.

(** The arguments after lines 125-128. *)
Record config := {
  min_persisted : Z;
  min_visible : Z;
  include : value -> bool;
  exclude : value -> bool;
  verbose : bool
}.

(** [include(t['text']) and not exclude(t['text'])] *)
Definition passes_filter (cfg : config) (t : value) : Py bool :=
  text <- getitem t "text" ;;
  if include cfg text then
    text' <- getitem t "text" ;;
    ret (negb (exclude cfg text'))
  else ret false.

(** [log(token_doc[k] + 1)] *)
Definition log_field (token_doc : value) (k : string) : Py float :=
  v <- getitem token_doc k ;;
  n <- to_number v ;;
  py_log (add1 n).

(** [doc[k] >= z] and [doc[k] < z] *)
Definition field_ge (doc : value) (k : string) (z : Z) : Py bool :=
  v <- getitem doc k ;;
  n <- to_number v ;;
  ret (ge_Z n z).

Definition field_lt (doc : value) (k : string) (z : Z) : Py bool :=
  v <- getitem doc k ;;
  n <- to_number v ;;
  ret (lt_Z n z).

(** The body of the token loop, lines 146-179. *)
Definition token_body (cfg : config) (persistence_doc : value)
    (st : stats_doc) (token_doc : value) : Py stats_doc :=
  (if verbose cfg then write "." else ret tt) ;;;
  let added := tokens_added st + 1 in
  lp <- log_field token_doc "persisted" ;;
  let slp := add_float (sum_log_persisted st) lp in
  lnsp <- log_field token_doc "non_self_persisted" ;;
  let slnsp := add_float (sum_log_non_self_persisted st) lnsp in
  lsv <- log_field token_doc "seconds_visible" ;;
  let slsv := add_float (sum_log_seconds_visible st) lsv in
  by_time <- field_ge token_doc "seconds_visible" (min_visible cfg) ;;
  if by_time then
    ret {| tokens_added := added;
           persistent_tokens := persistent_tokens st + 1;
           non_self_persistent_tokens := non_self_persistent_tokens st + 1;
           sum_log_persisted := slp;
           sum_log_non_self_persisted := slnsp;
           sum_log_seconds_visible := slsv;
           censored := censored st;
           non_self_censored := non_self_censored st |}
  else
    p <- field_ge token_doc "persisted" (min_persisted cfg) ;;
    nsp <- field_ge token_doc "non_self_persisted" (min_persisted cfg) ;;
    let st' := fun c nc =>
      {| tokens_added := added;
         persistent_tokens := persistent_tokens st + Z.b2z p;
         non_self_persistent_tokens :=
           non_self_persistent_tokens st + Z.b2z nsp;
         sum_log_persisted := slp;
         sum_log_non_self_persisted := slnsp;
         sum_log_seconds_visible := slsv;
         censored := c;
         non_self_censored := nc |} in
    short <- field_lt persistence_doc "seconds_possible" (min_visible cfg) ;;
    if short then ret (st' true true)
    else
      few <- field_lt persistence_doc "revisions_processed"
               (min_persisted cfg) ;;
      few_ns <- field_lt persistence_doc "non_self_processed"
                  (min_persisted cfg) ;;
      ret (st' (if few then true else censored st)
               (if few_ns then true else non_self_censored st)).

(** The loop of line 145 over the generator of lines 143-144: each token is
    filtered when the loop asks for it. *)
Fixpoint token_loop (cfg : config) (persistence_doc : value)
    (tokens : list value) (st : stats_doc) : Py stats_doc :=
  match tokens with
  | [] => ret st
  | t :: rest =>
      keep <- passes_filter cfg t ;;
      if keep then
        st' <- token_body cfg persistence_doc st t ;;
        token_loop cfg persistence_doc rest st'
      else token_loop cfg persistence_doc rest st
  end.

(** The items of [stats_doc], in the order of the literal. *)
Definition stats_items (st : stats_doc) : list (string * value) :=
  [ ("tokens_added", VInt (tokens_added st));
    ("persistent_tokens", VInt (persistent_tokens st));
    ("non_self_persistent_tokens", VInt (non_self_persistent_tokens st));
    ("sum_log_persisted", VNum (sum_log_persisted st));
    ("sum_log_non_self_persisted", VNum (sum_log_non_self_persisted st));
    ("sum_log_seconds_visible", VNum (sum_log_seconds_visible st));
    ("censored", VBool (censored st));
    ("non_self_censored", VBool (non_self_censored st)) ].

(** [d.update(items)] *)
Definition dict_update (d : gmap string value)
    (items : list (string * value)) : gmap string value :=
  foldl (fun m kv => <[kv.1 := kv.2]> m) d items.

(** [rev_doc['persistence'].update(stats_doc)], line 185: the nested dict is
    changed in place, so the document that is yielded holds the new one. *)
Definition update_persistence (rev_doc : value) (st : stats_doc) : Py value :=
  match rev_doc with
  | VDict m =>
      match m !! "persistence" with
      | Some (VDict pd) =>
          ret (VDict (<["persistence" :=
                          VDict (dict_update pd (stats_items st))]> m))
      | Some _ => raise AttributeError
      | None => raise (KeyError "persistence")
      end
  | _ => raise TypeError
  end.

(** The statistics of one document, lines 131-183. *)
Definition document_stats (cfg : config) (rev_doc : value) : Py stats_doc :=
  persistence_doc <- getitem rev_doc "persistence" ;;
  tokens <- getitem persistence_doc "tokens" ;;
  toks <- py_iter tokens ;;
  st <- token_loop cfg persistence_doc toks stats_init ;;
  (if verbose cfg then write newline else ret tt) ;;;
  ret st.

(** One turn of the loop of line 130: the document that is yielded. *)
Definition persistence2stats_doc (cfg : config) (rev_doc : value) : Py value :=
  st <- document_stats cfg rev_doc ;;
  update_persistence rev_doc st.

(** ** Generators

    What a consumer that exhausts a generator sees: the documents yielded,
    in order, the exception that ended it (if any), and [sys.stderr]. *)

Record outcome := {
  yielded : list value;
  raised : option exn;
  stderr_out : stderr
}.

(** [for rev_doc in rev_docs: yield f(rev_doc)] *)
Fixpoint generate (f : value -> Py value) (rev_docs : list value)
    (err : stderr) : outcome :=
  match rev_docs with
  | [] => {| yielded := []; raised := None; stderr_out := err |}
  | d :: rest =>
      match f d err with
      | (inl e, err') =>
          {| yielded := []; raised := Some e; stderr_out := err' |}
      | (inr d', err') =>
          let o := generate f rest err' in
          {| yielded := d' :: yielded o;
             raised := raised o;
             stderr_out := stderr_out o |}
      end
  end.

(** Lines 125-128.  [mwxml.utilities.normalize] of line 123 belongs to
    another package and is not part of the embedding, which starts at line
    125: [rev_docs] below are the documents that [normalize] hands to the
    loop of line 130, not the ones it was given (it may rename or delete
    entries of a document before the loop sees it). *)
Definition make_config (min_persisted min_visible : number)
    (include exclude : option (value -> bool)) (verbose : bool) : Py config :=
  mp <- py_int min_persisted ;;
  mv <- py_int min_visible ;;
  ret {| min_persisted := mp;
         min_visible := mv;
         include := default (fun _ => true) include;
         exclude := default (fun _ => false) exclude;
         verbose := verbose |}.

Definition persistence2stats (rev_docs : list value)
    (min_persisted min_visible : number)
    (include exclude : option (value -> bool)) (verbose : bool)
    (err : stderr) : outcome :=
  match make_config min_persisted min_visible include exclude verbose err with
  | (inl e, err') => {| yielded := []; raised := Some e; stderr_out := err' |}
  | (inr cfg, err') => generate (persistence2stats_doc cfg) rev_docs err'
  end.

(** [rev_doc['persistence'].pop('tokens', None)], line 84.  A [list] has a
    [pop], which takes no default; the other values have none. *)
Definition drop_tokens_doc (rev_doc : value) : Py value :=
  match rev_doc with
  | VDict m =>
      match m !! "persistence" with
      | Some (VDict pd) =>
          ret (VDict (<["persistence" := VDict (delete "tokens" pd)]> m))
      | Some (VList _) => raise TypeError
      | Some _ => raise AttributeError
      | None => raise (KeyError "persistence")
      end
  | _ => raise TypeError
  end.

Definition drop_tokens (rev_docs : list value) (err : stderr) : outcome :=
  generate drop_tokens_doc rev_docs err.

(** [_persistence2stats], lines 74-79.  [drop_tokens] pulls one document at
    a time out of [persistence2stats], so each document is pruned right after
    its statistics were written and before the next one is read. *)
Definition _persistence2stats (rev_docs : list value) (keep_tokens : bool)
    (min_persisted min_visible : number)
    (include exclude : option (value -> bool)) (verbose : bool)
    (err : stderr) : outcome :=
  if keep_tokens then
    persistence2stats rev_docs min_persisted min_visible include exclude
      verbose err
  else
    match make_config min_persisted min_visible include exclude verbose err with
    | (inl e, err') =>
        {| yielded := []; raised := Some e; stderr_out := err' |}
    | (inr cfg, err') =>
        generate (fun d => d' <- persistence2stats_doc cfg d ;;
                           drop_tokens_doc d') rev_docs err'
    end.

(** ** Well-formed documents

    The documents the upstream stage writes: every token is a [dict] with a
    [text] and three non-negative [int]s, and the [persistence] record holds
    three [int]s that bound the observation window. *)

Record token := {
  text : value;
  persisted : Z;
  non_self_persisted : Z;
  seconds_visible : Z
}.

Record window := {
  seconds_possible : Z;
  revisions_processed : Z;
  non_self_processed : Z
}.

Definition read_int (d : gmap string value) (k : string) : option Z :=
  match d !! k with
  | Some (VInt z) => Some z
  | _ => None
  end.

Definition read_token (t : value) : option token :=
  match t with
  | VDict d =>
      match d !! "text", read_int d "persisted",
            read_int d "non_self_persisted", read_int d "seconds_visible" with
      | Some x, Some p, Some q, Some s =>
          Some {| text := x; persisted := p;
                  non_self_persisted := q; seconds_visible := s |}
      | _, _, _, _ => None
      end
  | _ => None
  end.

Fixpoint read_tokens (ts : list value) : option (list token) :=
  match ts with
  | [] => Some []
  | t :: rest =>
      match read_token t, read_tokens rest with
      | Some tk, Some tks => Some (tk :: tks)
      | _, _ => None
      end
  end.

Definition read_window (pd : gmap string value) : option window :=
  match read_int pd "seconds_possible", read_int pd "revisions_processed",
        read_int pd "non_self_processed" with
  | Some a, Some b, Some c =>
      Some {| seconds_possible := a; revisions_processed := b;
              non_self_processed := c |}
  | _, _, _ => None
  end.

(** Counts and durations are never negative. *)
Definition token_ok (tk : token) : Prop :=
  0 <= persisted tk /\ 0 <= non_self_persisted tk /\ 0 <= seconds_visible tk.

(** A token is retained when it passes the filter. *)
Definition retained (cfg : config) (tk : token) : bool :=
  include cfg (text tk) && negb (exclude cfg (text tk)).

(** What [token_body] computes on a well-formed token: the decision table of
    lines 150-179. *)
Definition by_time (cfg : config) (tk : token) : bool :=
  min_visible cfg <=? seconds_visible tk.

Definition classify (cfg : config) (w : window) (st : stats_doc)
    (tk : token) : stats_doc :=
  let short := seconds_possible w <? min_visible cfg in
  {| tokens_added := tokens_added st + 1;
     persistent_tokens :=
       persistent_tokens st +
       (if by_time cfg tk then 1
        else Z.b2z (min_persisted cfg <=? persisted tk));
     non_self_persistent_tokens :=
       non_self_persistent_tokens st +
       (if by_time cfg tk then 1
        else Z.b2z (min_persisted cfg <=? non_self_persisted tk));
     sum_log_persisted :=
       add_float (sum_log_persisted st) (log (Int (persisted tk + 1)));
     sum_log_non_self_persisted :=
       add_float (sum_log_non_self_persisted st)
         (log (Int (non_self_persisted tk + 1)));
     sum_log_seconds_visible :=
       add_float (sum_log_seconds_visible st)
         (log (Int (seconds_visible tk + 1)));
     censored :=
       censored st ||
       (negb (by_time cfg tk) &&
        (short || (revisions_processed w <? min_persisted cfg)));
     non_self_censored :=
       non_self_censored st ||
       (negb (by_time cfg tk) &&
        (short || (non_self_processed w <? min_persisted cfg))) |}.

(** One turn of the loop, and the loop. *)
Definition tally (cfg : config) (w : window) (st : stats_doc)
    (tk : token) : stats_doc :=
  if retained cfg tk then classify cfg w st tk else st.

Definition aggregate (cfg : config) (w : window) (tks : list token)
    (st : stats_doc) : stats_doc :=
  foldl (tally cfg w) st tks.

(** The counters and flags of two [stats_doc]s agree. *)
Definition same_counts (st st' : stats_doc) : Prop :=
  tokens_added st = tokens_added st' /\
  persistent_tokens st = persistent_tokens st' /\
  non_self_persistent_tokens st = non_self_persistent_tokens st' /\
  censored st = censored st' /\
  non_self_censored st = non_self_censored st'.

(** The dots a verbose run writes for one retained token and for a token
    list. *)
Definition dot (cfg : config) : stderr := if verbose cfg then ["."] else [].

Definition dots (cfg : config) (tks : list token) : stderr :=
  if verbose cfg then
    (fun _ => ".") <$> filter (fun tk => retained cfg tk = true) tks
  else [].

(** The terms of a log-sum, in token order, and their sum as the loop
    accumulates it. *)
Definition log_terms (cfg : config) (field : token -> Z)
    (tks : list token) : list float :=
  (fun tk => log (Int (field tk + 1))) <$>
    filter (fun tk => retained cfg tk = true) tks.

Definition accumulate (acc : number) (terms : list float) : number :=
  foldl add_float acc terms.



(** Two computations that return or raise the same whatever [sys.stderr]
    holds, and a computation that writes nothing. *)
Definition same_result {A} (m m' : Py A) : Prop :=
  forall err err', (m err).1 = (m' err').1.

Definition silent {A} (m : Py A) : Prop :=
  forall err, (m err).2 = err.

Definition set_verbose (vb : bool) (cfg : config) : config :=
  {| min_persisted := min_persisted cfg;
     min_visible := min_visible cfg;
     include := include cfg;
     exclude := exclude cfg;
     verbose := vb |}.

(** A sum is non-negative when Python's [0 <= x] says so. *)
Definition SFnonneg (f : float) : bool := SFleb (S754_zero false) f.

Definition nonneg (n : number) : bool :=
  match n with
  | Int z => 0 <=? z
  | Float f => SFnonneg f
  end.

(** [math.log] returns no negative number (and no NaN) at the three
    arguments a token gives it. *)
Definition log_ok (tk : token) : Prop :=
  SFnonneg (log (Int (persisted tk + 1))) = true /\
  SFnonneg (log (Int (non_self_persisted tk + 1))) = true /\
  SFnonneg (log (Int (seconds_visible tk + 1))) = true.

(** What the loop keeps true of the statistics. *)
Definition bounded (st : stats_doc) : Prop :=
  0 <= persistent_tokens st <= tokens_added st /\
  0 <= non_self_persistent_tokens st <= tokens_added st /\
  nonneg (sum_log_persisted st) = true /\
  nonneg (sum_log_non_self_persisted st) = true /\
  nonneg (sum_log_seconds_visible st) = true.

(** The floor of a finite float, and the test [z >= f] of an [int] against
    a float. *)
Definition SFfloor (f : float) : option Z :=
  match f with
  | S754_zero _ => Some 0
  | S754_finite s m e => Some (Z.shiftl (cond_Zopp s (Zpos m)) e)
  | _ => None
  end.

Definition Z_ge_float (z : Z) (f : float) : bool :=
  match SFcompare_Z f z with
  | Some (Lt | Eq) => true
  | _ => false
  end.

Definition Z_lt_float (z : Z) (f : float) : bool :=
  match SFcompare_Z f z with
  | Some Gt => true
  | _ => false
  end.

End Persistence2Stats.

(** ** A concrete [math.log]

    The binary64 values CPython's [math.log] returns at the small integers
    the examples below use, as mantissa and exponent: [math.log(2).hex()] is
    [0x1.62e42fefa39efp-1], that is 6243314768165359 * 2**-53, and
    [math.log(6).hex()] is [0x1.cab0bfa2a2002p+0], that is
    8069367277953026 * 2**-52.  Elsewhere the table says NaN: no example
    leaves it. *)
Definition log_table (n : number) : float :=
  match n with
  | Int 1 => S754_zero false
  | Int 2 => S754_finite false 6243314768165359 (-53)
  | Int 3 => S754_finite false 4947709893870347 (-52)
  | Int 4 => S754_finite false 6243314768165359 (-52)
  | Int 5 => S754_finite false 7248263982714163 (-52)
  | Int 6 => S754_finite false 8069367277953026 (-52)
  | Int 7 => S754_finite false 8763600222181975 (-52)
  | Int 8 => S754_finite false 4682486076124019 (-51)
  | Int 9 => S754_finite false 4947709893870347 (-51)
  | Int 101 => S754_finite false 5196163759979057 (-50)
  | _ => S754_nan
  end.

#[export] Instance libm : MathLib := {| log := log_table |}.

(** ** Example documents *)

Definition example_token (txt : string) (p nsp sv : Z) : value :=
  VDict (<["text" := VStr txt]> (<["persisted" := VInt p]>
        (<["non_self_persisted" := VInt nsp]>
        (<["seconds_visible" := VInt sv]> ∅)))).

Definition example_persistence (toks : list value) (sp rp nsp : Z)
    : gmap string value :=
  <["tokens" := VList toks]> (<["seconds_possible" := VInt sp]>
  (<["revisions_processed" := VInt rp]>
  (<["non_self_processed" := VInt nsp]> ∅))).

Definition example_fields : gmap string value :=
  <["id" := VInt 7]> (<["page" := VStr "Sandbox"]> ∅).

Definition example_doc (toks : list value) (sp rp nsp : Z) : value :=
  VDict (<["persistence" := VDict (example_persistence toks sp rp nsp)]>
           example_fields).

(** Scenario A of the specification. *)
Definition scenario_A : value :=
  example_doc [example_token "x" 6 2 100] 40000 6 3.

Definition example_config (vb : bool) : config :=
  {| min_persisted := 5; min_visible := 36000;
     include := fun _ => true; exclude := fun _ => false; verbose := vb |}.

(** 1.5, a threshold that is not a whole number of seconds. *)
Definition SF_1_5 : float := S754_finite false 6755399441055744 (-52).

(** An [include] in the way of [process_args]: the texts that contain the
    character [c]. *)
Definition contains (c : Ascii.ascii) (v : value) : bool :=
  match v with
  | VStr s => existsb (Ascii.eqb c) (String.list_ascii_of_string s)
  | _ => false
  end.

(** Scenario D of the specification: [include] matches ["a"]. *)
Definition scenario_D_config : config :=
  {| min_persisted := 5; min_visible := 36000;
     include := contains (Ascii.ascii_of_nat 97); exclude := fun _ => false;
     verbose := true |}.

(** ** Notions for the further properties *)

(** The key whose absence ends the run on a document: [persistence], or
    [tokens] inside it. *)
Definition missing_key (m : gmap string value) : option string :=
  match m !! "persistence" with
  | None => Some "persistence"
  | Some (VDict pd) =>
      match pd !! "tokens" with
      | None => Some "tokens"
      | Some _ => None
      end
  | Some _ => None
  end.

(** A float that [int] accepts, and the exception [int] raises on the
    others. *)
Definition finite (f : float) : bool :=
  match f with
  | S754_zero _ | S754_finite _ _ _ => true
  | _ => false
  end.

Definition int_error (f : float) : exn :=
  match f with
  | S754_nan => ValueError
  | _ => OverflowError
  end.

(** [z] is [f] rounded towards zero: [z <= f < z + 1] from zero up,
    [z - 1 < f <= z] from zero down. *)
Definition towards_zero (f : float) (z : Z) : Prop :=
  (0 <= z /\ SFcompare_Z f z <> Some Lt /\ SFcompare_Z f (z + 1) = Some Lt) \/
  (z <= 0 /\ SFcompare_Z f z <> Some Gt /\ SFcompare_Z f (z - 1) = Some Gt).

(** A retained token that meets a threshold, and one that does not meet the
    time threshold. *)
Definition persistent (cfg : config) (tk : token) : bool :=
  retained cfg tk &&
  (by_time cfg tk || (min_persisted cfg <=? persisted tk)).

Definition non_self_persistent (cfg : config) (tk : token) : bool :=
  retained cfg tk &&
  (by_time cfg tk || (min_persisted cfg <=? non_self_persisted tk)).

Definition unobserved (cfg : config) (tk : token) : bool :=
  retained cfg tk && negb (by_time cfg tk).

Definition count (p : token -> bool) (tks : list token) : Z :=
  Z.of_nat (length (filter (fun tk => p tk = true) tks)).

(** The keys of [stats_doc]. *)
Definition stats_keys : list string :=
  [ "tokens_added"; "persistent_tokens"; "non_self_persistent_tokens";
    "sum_log_persisted"; "sum_log_non_self_persisted";
    "sum_log_seconds_visible"; "censored"; "non_self_censored" ].

(** Two documents that differ in [persistence] at most. *)
Definition same_other_fields (d d' : value) : Prop :=
  exists m m', d = VDict m /\ d' = VDict m' /\
    forall k, k <> "persistence" -> m' !! k = m !! k.

(** A document as [_persistence2stats] yields it without [keep_tokens]. *)
Definition pruned (d : value) : Prop :=
  exists m pd, d = VDict m /\ m !! "persistence" = Some (VDict pd) /\
    pd !! "tokens" = None /\
    Forall (fun k => is_Some (pd !! k)) stats_keys.

(** [cfg'] has the filter of [cfg] and thresholds that are no lower. *)
Definition stricter (cfg cfg' : config) : Prop :=
  min_persisted cfg <= min_persisted cfg' /\
  min_visible cfg <= min_visible cfg' /\
  (forall x, include cfg' x = include cfg x) /\
  (forall x, exclude cfg' x = exclude cfg x).

(** -1.5 and positive infinity. *)
Definition SF_minus_1_5 : float := S754_finite true 6755399441055744 (-52).

Definition SF_inf : float := S754_infinity false.

(** A key is none of those [update] writes. *)
Ltac not_stats_key :=
  cbn; rewrite !not_elem_of_cons;
  repeat split; (congruence || apply not_elem_of_nil).

(** ** The monad *)

Section Facts.

Context `{MathLib}.

Lemma bind_inr {A B} (m : Py A) (k : A -> Py B) err a err' :
  m err = (inr a, err') -> bind m k err = k a err'.
Proof. intros Hm. unfold bind. now rewrite Hm. Qed.

Lemma bind_inl {A B} (m : Py A) (k : A -> Py B) err e err' :
  m err = (inl e, err') -> bind m k err = (inl e, err').
Proof. intros Hm. unfold bind. now rewrite Hm. Qed.

Lemma getitem_Some d k x err :
  d !! k = Some x -> getitem (VDict d) k err = (inr x, err).
Proof. intros Hk. unfold getitem. now rewrite Hk. Qed.

Lemma getitem_None d k err :
  d !! k = None -> getitem (VDict d) k err = (inl (KeyError k), err).
Proof. intros Hk. unfold getitem. now rewrite Hk. Qed.

Lemma ge_Z_Int a z : ge_Z (Int a) z = (z <=? a).
Proof.
  unfold ge_Z, compare_Z. destruct (Z.compare_spec a z), (Z.leb_spec z a);
    (reflexivity || lia).
Qed.

Lemma lt_Z_Int a z : lt_Z (Int a) z = (a <? z).
Proof.
  unfold lt_Z, compare_Z. destruct (Z.compare_spec a z), (Z.ltb_spec a z);
    (reflexivity || lia).
Qed.

Lemma log_field_int d k z err :
  d !! k = Some (VInt z) -> 0 <= z ->
  log_field (VDict d) k err = (inr (log (Int (z + 1))), err).
Proof.
  intros Hk Hz. unfold log_field.
  rewrite (bind_inr _ _ _ _ _ (getitem_Some _ _ _ _ Hk)).
  cbn. destruct (Z.ltb_spec 0 (z + 1)); [reflexivity | lia].
Qed.

Lemma field_ge_int d k a z err :
  d !! k = Some (VInt a) ->
  field_ge (VDict d) k z err = (inr (z <=? a), err).
Proof.
  intros Hk. unfold field_ge.
  rewrite (bind_inr _ _ _ _ _ (getitem_Some _ _ _ _ Hk)).
  unfold bind, to_number, ret. now rewrite ge_Z_Int.
Qed.

Lemma field_lt_int d k a z err :
  d !! k = Some (VInt a) ->
  field_lt (VDict d) k z err = (inr (a <? z), err).
Proof.
  intros Hk. unfold field_lt.
  rewrite (bind_inr _ _ _ _ _ (getitem_Some _ _ _ _ Hk)).
  unfold bind, to_number, ret. now rewrite lt_Z_Int.
Qed.

Lemma read_int_Some d k z : read_int d k = Some z -> d !! k = Some (VInt z).
Proof.
  unfold read_int. destruct (d !! k) as [[| | [a|] | | |]|]; congruence.
Qed.

Lemma read_token_Some t tk :
  read_token t = Some tk ->
  exists d, t = VDict d /\
    d !! "text" = Some (text tk) /\
    d !! "persisted" = Some (VInt (persisted tk)) /\
    d !! "non_self_persisted" = Some (VInt (non_self_persisted tk)) /\
    d !! "seconds_visible" = Some (VInt (seconds_visible tk)).
Proof.
  destruct t as [| | | | |d]; try discriminate. cbn.
  destruct (d !! "text") as [x|] eqn:Hx; [|discriminate].
  destruct (read_int d "persisted") as [p|] eqn:Hp; [|discriminate].
  destruct (read_int d "non_self_persisted") as [q|] eqn:Hq; [|discriminate].
  destruct (read_int d "seconds_visible") as [s|] eqn:Hs; [|discriminate].
  intros [= <-]. exists d. cbn. auto 10 using read_int_Some.
Qed.

Lemma read_window_Some pd w :
  read_window pd = Some w ->
  pd !! "seconds_possible" = Some (VInt (seconds_possible w)) /\
  pd !! "revisions_processed" = Some (VInt (revisions_processed w)) /\
  pd !! "non_self_processed" = Some (VInt (non_self_processed w)).
Proof.
  unfold read_window.
  destruct (read_int pd "seconds_possible") as [a|] eqn:Ha; [|discriminate].
  destruct (read_int pd "revisions_processed") as [b|] eqn:Hb; [|discriminate].
  destruct (read_int pd "non_self_processed") as [c|] eqn:Hc; [|discriminate].
  intros [= <-]. cbn. auto using read_int_Some.
Qed.

(** ** The loop on well-formed tokens *)

Lemma passes_filter_text cfg d x err :
  d !! "text" = Some x ->
  passes_filter cfg (VDict d) err =
    (inr (include cfg x && negb (exclude cfg x)), err).
Proof.
  intros Hx. unfold passes_filter.
  rewrite (bind_inr _ _ _ _ _ (getitem_Some _ _ _ _ Hx)).
  destruct (include cfg x); [|reflexivity].
  now rewrite (bind_inr _ _ _ _ _ (getitem_Some _ _ _ _ Hx)).
Qed.

Lemma passes_filter_token cfg t tk err :
  read_token t = Some tk ->
  passes_filter cfg t err = (inr (retained cfg tk), err).
Proof.
  intros (d & -> & Hx & _)%read_token_Some. now apply passes_filter_text.
Qed.

Lemma write_dot cfg err :
  (if verbose cfg then write "." else ret tt) err = (inr tt, err ++ dot cfg).
Proof.
  unfold dot. destruct (verbose cfg); cbn; [reflexivity|].
  now rewrite app_nil_r.
Qed.

(** On the time branch the window is never read: [pd] is any value. *)
Lemma token_body_by_time cfg pd st t tk err :
  read_token t = Some tk -> token_ok tk -> by_time cfg tk = true ->
  token_body cfg pd st t err =
    (inr {| tokens_added := tokens_added st + 1;
            persistent_tokens := persistent_tokens st + 1;
            non_self_persistent_tokens := non_self_persistent_tokens st + 1;
            sum_log_persisted :=
              add_float (sum_log_persisted st) (log (Int (persisted tk + 1)));
            sum_log_non_self_persisted :=
              add_float (sum_log_non_self_persisted st)
                (log (Int (non_self_persisted tk + 1)));
            sum_log_seconds_visible :=
              add_float (sum_log_seconds_visible st)
                (log (Int (seconds_visible tk + 1)));
            censored := censored st;
            non_self_censored := non_self_censored st |},
     err ++ dot cfg).
Proof.
  intros (d & -> & _ & Hp & Hq & Hs)%read_token_Some (Hp0 & Hq0 & Hs0) Ht.
  unfold token_body.
  rewrite (bind_inr _ _ _ _ _ (write_dot _ _)).
  rewrite (bind_inr _ _ _ _ _ (log_field_int _ _ _ _ Hp Hp0)).
  rewrite (bind_inr _ _ _ _ _ (log_field_int _ _ _ _ Hq Hq0)).
  rewrite (bind_inr _ _ _ _ _ (log_field_int _ _ _ _ Hs Hs0)).
  rewrite (bind_inr _ _ _ _ _ (field_ge_int _ _ _ _ _ Hs)).
  unfold by_time in Ht. now rewrite Ht.
Qed.

Lemma token_body_typed cfg pd w st t tk err :
  read_token t = Some tk -> token_ok tk -> read_window pd = Some w ->
  token_body cfg (VDict pd) st t err =
    (inr (classify cfg w st tk), err ++ dot cfg).
Proof.
  intros Ht Hok Hw. destruct (by_time cfg tk) eqn:Hbt.
  { rewrite (token_body_by_time _ _ _ _ _ _ Ht Hok Hbt).
    unfold classify. rewrite Hbt. cbn. now rewrite !orb_false_r. }
  destruct (read_token_Some _ _ Ht) as (d & -> & _ & Hp & Hq & Hs).
  destruct Hok as (Hp0 & Hq0 & Hs0).
  destruct (read_window_Some _ _ Hw) as (Hsp & Hrp & Hnp).
  unfold token_body.
  rewrite (bind_inr _ _ _ _ _ (write_dot _ _)).
  rewrite (bind_inr _ _ _ _ _ (log_field_int _ _ _ _ Hp Hp0)).
  rewrite (bind_inr _ _ _ _ _ (log_field_int _ _ _ _ Hq Hq0)).
  rewrite (bind_inr _ _ _ _ _ (log_field_int _ _ _ _ Hs Hs0)).
  rewrite (bind_inr _ _ _ _ _ (field_ge_int _ _ _ _ _ Hs)).
  unfold classify. rewrite Hbt. unfold by_time in Hbt. rewrite Hbt.
  rewrite (bind_inr _ _ _ _ _ (field_ge_int _ _ _ _ _ Hp)).
  rewrite (bind_inr _ _ _ _ _ (field_ge_int _ _ _ _ _ Hq)).
  rewrite (bind_inr _ _ _ _ _ (field_lt_int _ _ _ _ _ Hsp)).
  destruct (seconds_possible w <? min_visible cfg).
  { cbn. now rewrite !orb_true_r. }
  rewrite (bind_inr _ _ _ _ _ (field_lt_int _ _ _ _ _ Hrp)).
  rewrite (bind_inr _ _ _ _ _ (field_lt_int _ _ _ _ _ Hnp)).
  cbn. unfold ret. do 2 f_equal. f_equal.
  - now destruct (revisions_processed w <? _), (censored st).
  - now destruct (non_self_processed w <? _), (non_self_censored st).
Qed.

Lemma read_tokens_cons t ts tks' :
  read_tokens (t :: ts) = Some tks' ->
  exists tk tks, tks' = tk :: tks /\
    read_token t = Some tk /\ read_tokens ts = Some tks.
Proof.
  cbn. destruct (read_token t) as [tk|]; [|discriminate].
  destruct (read_tokens ts) as [tks|]; [|discriminate].
  intros [= <-]. eauto.
Qed.

Lemma dots_cons cfg tk tks :
  dots cfg (tk :: tks) =
    (if retained cfg tk then dot cfg else []) ++ dots cfg tks.
Proof.
  unfold dots, dot. rewrite filter_cons.
  destruct (decide (retained cfg tk = true)) as [->|Hn].
  - now destruct (verbose cfg).
  - apply not_true_is_false in Hn. rewrite Hn. now destruct (verbose cfg).
Qed.

Lemma token_loop_typed cfg pd w ts tks st err :
  read_tokens ts = Some tks -> Forall token_ok tks ->
  read_window pd = Some w ->
  token_loop cfg (VDict pd) ts st err =
    (inr (aggregate cfg w tks st), err ++ dots cfg tks).
Proof.
  intros Hts Hok Hw. revert tks st err Hts Hok.
  induction ts as [|t ts IH]; intros tks st err Hts Hok.
  - injection Hts as <-. cbn. unfold ret, dots.
    destruct (verbose cfg); cbn; now rewrite app_nil_r.
  - apply read_tokens_cons in Hts as (tk & tks0 & -> & Ht & Hts).
    apply Forall_cons in Hok as [Hok Hoks].
    cbn [token_loop].
    rewrite (bind_inr _ _ _ _ _ (passes_filter_token _ _ _ _ Ht)).
    rewrite dots_cons. unfold aggregate. cbn [foldl]. unfold tally at 2.
    destruct (retained cfg tk).
    + rewrite (bind_inr _ _ _ _ _ (token_body_typed _ _ _ _ _ _ _ Ht Hok Hw)).
      rewrite (IH _ _ _ Hts Hoks). now rewrite app_assoc.
    + now rewrite (IH _ _ _ Hts Hoks).
Qed.

(** A well-formed document: a [dict] whose [persistence] holds a token list
    and the window. *)
Lemma document_stats_typed cfg m pd ts tks w err :
  m !! "persistence" = Some (VDict pd) ->
  pd !! "tokens" = Some (VList ts) ->
  read_tokens ts = Some tks -> Forall token_ok tks ->
  read_window pd = Some w ->
  document_stats cfg (VDict m) err =
    (inr (aggregate cfg w tks stats_init),
     err ++ dots cfg tks ++ (if verbose cfg then [newline] else [])).
Proof.
  intros Hm Hpd Hts Hok Hw. unfold document_stats.
  rewrite (bind_inr _ _ _ _ _ (getitem_Some _ _ _ _ Hm)).
  rewrite (bind_inr _ _ _ _ _ (getitem_Some _ _ _ _ Hpd)).
  unfold py_iter at 1. unfold bind at 1, ret at 1.
  rewrite (bind_inr _ _ _ _ _ (token_loop_typed _ _ _ _ _ _ _ Hts Hok Hw)).
  destruct (verbose cfg); cbn; unfold ret.
  - now rewrite app_assoc.
  - now rewrite !app_nil_r.
Qed.

Lemma persistence2stats_doc_ok cfg m pd st err err' :
  m !! "persistence" = Some (VDict pd) ->
  document_stats cfg (VDict m) err = (inr st, err') ->
  persistence2stats_doc cfg (VDict m) err =
    (inr (VDict (<["persistence" :=
                     VDict (dict_update pd (stats_items st))]> m)), err').
Proof.
  intros Hm Hst. unfold persistence2stats_doc.
  rewrite (bind_inr _ _ _ _ _ Hst). unfold update_persistence.
  now rewrite Hm.
Qed.

Lemma generate_one f d d' err err' :
  f d err = (inr d', err') ->
  generate f [d] err =
    {| yielded := [d']; raised := None; stderr_out := err' |}.
Proof. intros Hf. cbn. now rewrite Hf. Qed.

(** ** Scenario A *)

(** C1: with [min_persisted = 5] and [min_visible = 36000], the document of
    Scenario A (one token with [persisted = 6], [non_self_persisted = 2],
    [seconds_visible = 100]; [seconds_possible = 40000],
    [revisions_processed = 6], [non_self_processed = 3]) is yielded with
    [tokens_added = 1], [persistent_tokens = 1],
    [non_self_persistent_tokens = 0], [censored = False] and
    [non_self_censored = True]; its three sums are [0 + log(7)],
    [0 + log(3)] and [0 + log(101)].  The threshold may be the [int] 36000
    or the [float] 36000.0 that ten hours give on the command line. *)
Theorem scenario_A_statistics (vb : bool) (err : stderr) :
  let o := persistence2stats [scenario_A] (Int 5) (Int 36000) None None
             vb err in
  document_stats (example_config vb) scenario_A err =
    (inr {| tokens_added := 1;
            persistent_tokens := 1;
            non_self_persistent_tokens := 0;
            sum_log_persisted := add_float (Int 0) (log (Int 7));
            sum_log_non_self_persisted := add_float (Int 0) (log (Int 3));
            sum_log_seconds_visible := add_float (Int 0) (log (Int 101));
            censored := false;
            non_self_censored := true |},
     err ++ (if vb then ["."; newline] else [])) /\
  persistence2stats [scenario_A] (Int 5) (Float (Z2SF 36000)) None None
    vb err = o /\
  raised o = None /\
  exists m pd,
    yielded o = [VDict m] /\
    m !! "persistence" = Some (VDict pd) /\
    pd !! "tokens_added" = Some (VInt 1) /\
    pd !! "persistent_tokens" = Some (VInt 1) /\
    pd !! "non_self_persistent_tokens" = Some (VInt 0) /\
    pd !! "censored" = Some (VBool false) /\
    pd !! "non_self_censored" = Some (VBool true).
Proof.
  assert (Hstats : forall vb',
    document_stats (example_config vb') scenario_A err =
    (inr {| tokens_added := 1;
            persistent_tokens := 1;
            non_self_persistent_tokens := 0;
            sum_log_persisted := add_float (Int 0) (log (Int 7));
            sum_log_non_self_persisted := add_float (Int 0) (log (Int 3));
            sum_log_seconds_visible := add_float (Int 0) (log (Int 101));
            censored := false;
            non_self_censored := true |},
     err ++ (if vb' then ["."; newline] else []))).
  { intros vb'.
    unfold scenario_A, example_doc.
    erewrite document_stats_typed with
      (tks := [{| text := VStr "x"; persisted := 6; non_self_persisted := 2;
                  seconds_visible := 100 |}])
      (w := {| seconds_possible := 40000; revisions_processed := 6;
               non_self_processed := 3 |}); try reflexivity.
    - now destruct vb'.
    - repeat constructor; cbn; lia. }
  cbv zeta. split; [apply Hstats|]. split; [reflexivity|].
  change (persistence2stats [scenario_A] (Int 5) (Int 36000) None None vb err)
    with (generate (persistence2stats_doc (example_config vb))
            [scenario_A] err).
  erewrite generate_one
    by (eapply persistence2stats_doc_ok; [reflexivity | apply Hstats]).
  cbn [raised yielded]. split; [reflexivity|].
  eexists _, _. split; [reflexivity|]. split; [apply lookup_insert_eq|].
  repeat split; vm_compute; reflexivity.
Qed.

(** ** Filtering *)

Lemma dict_update_stats pd st :
  dict_update pd (stats_items st) =
    <["non_self_censored" := VBool (non_self_censored st)]>
    (<["censored" := VBool (censored st)]>
    (<["sum_log_seconds_visible" := VNum (sum_log_seconds_visible st)]>
    (<["sum_log_non_self_persisted" := VNum (sum_log_non_self_persisted st)]>
    (<["sum_log_persisted" := VNum (sum_log_persisted st)]>
    (<["non_self_persistent_tokens" := VInt (non_self_persistent_tokens st)]>
    (<["persistent_tokens" := VInt (persistent_tokens st)]>
    (<["tokens_added" := VInt (tokens_added st)]> pd))))))).
Proof. reflexivity. Qed.

(** The keys [update] writes. *)
Lemma dict_update_lookup pd st :
  let pd' := dict_update pd (stats_items st) in
  pd' !! "tokens_added" = Some (VInt (tokens_added st)) /\
  pd' !! "persistent_tokens" = Some (VInt (persistent_tokens st)) /\
  pd' !! "non_self_persistent_tokens" =
    Some (VInt (non_self_persistent_tokens st)) /\
  pd' !! "sum_log_persisted" = Some (VNum (sum_log_persisted st)) /\
  pd' !! "sum_log_non_self_persisted" =
    Some (VNum (sum_log_non_self_persisted st)) /\
  pd' !! "sum_log_seconds_visible" =
    Some (VNum (sum_log_seconds_visible st)) /\
  pd' !! "censored" = Some (VBool (censored st)) /\
  pd' !! "non_self_censored" = Some (VBool (non_self_censored st)).
Proof.
  cbv zeta. rewrite dict_update_stats. repeat split; now simplify_map_eq.
Qed.



(** ** The field pruner *)

(** C7: on a document with a [persistence] record, [drop_tokens] yields the
    document with [tokens] removed from that record; every other entry of
    the record and every other field of the document is as before, nothing
    is raised or written, and a document without [tokens] is yielded
    unchanged. *)
Theorem drop_tokens_frame (m pd : gmap string value) (err : stderr) :
  m !! "persistence" = Some (VDict pd) ->
  exists m' pd',
    drop_tokens [VDict m] err =
      {| yielded := [VDict m']; raised := None; stderr_out := err |} /\
    m' !! "persistence" = Some (VDict pd') /\
    pd' !! "tokens" = None /\
    (forall k, k <> "tokens" -> pd' !! k = pd !! k) /\
    (forall k, k <> "persistence" -> m' !! k = m !! k) /\
    (pd !! "tokens" = None -> m' = m).
Proof.
  intros Hm.
  exists (<["persistence" := VDict (delete "tokens" pd)]> m),
    (delete "tokens" pd).
  split; [|split; [|split; [|split; [|split]]]].
  - unfold drop_tokens. apply generate_one. unfold drop_tokens_doc.
    now rewrite Hm.
  - apply lookup_insert_eq.
  - apply lookup_delete_eq.
  - intros k Hk. now apply lookup_delete_ne.
  - intros k Hk. now apply lookup_insert_ne.
  - intros Hnone. rewrite (delete_id pd "tokens" Hnone).
    now apply insert_id.
Qed.

(** ** Verbose runs *)

Lemma same_result_bind {A B} (m m' : Py A) (k k' : A -> Py B) :
  same_result m m' -> (forall a, same_result (k a) (k' a)) ->
  same_result (bind m k) (bind m' k').
Proof.
  intros Hm Hk err err'. unfold bind. specialize (Hm err err').
  destruct (m err) as [[e|a] e1], (m' err') as [[e'|a'] e1'];
    cbn in Hm; try discriminate.
  - now injection Hm as ->.
  - injection Hm as ->. apply Hk.
Qed.

Lemma same_result_ret {A} (a : A) : same_result (ret a) (ret a).
Proof. now intros err err'. Qed.

Lemma same_result_raise {A} (e : exn) : same_result (@raise A e) (raise e).
Proof. now intros err err'. Qed.

Lemma same_result_getitem v k : same_result (getitem v k) (getitem v k).
Proof.
  destruct v; try apply same_result_raise. cbn.
  destruct (_ !! k); [apply same_result_ret | apply same_result_raise].
Qed.

Lemma same_result_to_number v : same_result (to_number v) (to_number v).
Proof.
  destruct v; try apply same_result_raise; apply same_result_ret.
Qed.

Lemma same_result_py_log n : same_result (py_log n) (py_log n).
Proof.
  destruct n as [z|f]; cbn.
  - destruct (0 <? z); [apply same_result_ret | apply same_result_raise].
  - destruct f; try apply same_result_ret;
      destruct (SFltb _ _); (apply same_result_ret || apply same_result_raise).
Qed.

Lemma same_result_py_iter v : same_result (py_iter v) (py_iter v).
Proof.
  destruct v; try apply same_result_raise; apply same_result_ret.
Qed.

Lemma same_result_py_int n : same_result (py_int n) (py_int n).
Proof.
  destruct n as [z|[]]; try apply same_result_raise; apply same_result_ret.
Qed.

Lemma same_result_log_field t k : same_result (log_field t k) (log_field t k).
Proof.
  unfold log_field.
  repeat (apply same_result_bind; [|intros ?]);
    auto using same_result_getitem, same_result_to_number, same_result_py_log.
Qed.

Lemma same_result_field_ge d k z : same_result (field_ge d k z) (field_ge d k z).
Proof.
  unfold field_ge.
  repeat (apply same_result_bind; [|intros ?]);
    auto using same_result_getitem, same_result_to_number, same_result_ret.
Qed.

Lemma same_result_field_lt d k z : same_result (field_lt d k z) (field_lt d k z).
Proof.
  unfold field_lt.
  repeat (apply same_result_bind; [|intros ?]);
    auto using same_result_getitem, same_result_to_number, same_result_ret.
Qed.

Lemma same_result_write_if {vb vb' : bool} s :
  same_result (if vb then write s else ret tt)
              (if vb' then write s else ret tt).
Proof. intros err err'. now destruct vb, vb'. Qed.

Lemma same_result_passes_filter cfg vb t :
  same_result (passes_filter cfg t) (passes_filter (set_verbose vb cfg) t).
Proof.
  unfold passes_filter. cbn [include exclude set_verbose].
  apply same_result_bind; [apply same_result_getitem | intros x].
  destruct (include cfg x); [|apply same_result_ret].
  apply same_result_bind; [apply same_result_getitem | intros y].
  apply same_result_ret.
Qed.

Lemma same_result_token_body cfg vb pd st t :
  same_result (token_body cfg pd st t)
              (token_body (set_verbose vb cfg) pd st t).
Proof.
  unfold token_body. cbn [min_persisted min_visible verbose set_verbose].
  apply same_result_bind; [apply same_result_write_if | intros _].
  do 3 (apply same_result_bind; [apply same_result_log_field | intros ?]).
  apply same_result_bind; [apply same_result_field_ge | intros b].
  destruct b; [apply same_result_ret|].
  do 2 (apply same_result_bind; [apply same_result_field_ge | intros ?]).
  apply same_result_bind; [apply same_result_field_lt | intros short].
  destruct short; [apply same_result_ret|].
  do 2 (apply same_result_bind; [apply same_result_field_lt | intros ?]).
  apply same_result_ret.
Qed.

Lemma same_result_token_loop cfg vb pd ts st :
  same_result (token_loop cfg pd ts st)
              (token_loop (set_verbose vb cfg) pd ts st).
Proof.
  revert st. induction ts as [|t ts IH]; intros st; cbn [token_loop].
  - apply same_result_ret.
  - apply same_result_bind; [apply same_result_passes_filter | intros keep].
    destruct keep; [|apply IH].
    apply same_result_bind; [apply same_result_token_body | intros st'].
    apply IH.
Qed.

Lemma same_result_update_persistence d st :
  same_result (update_persistence d st) (update_persistence d st).
Proof.
  destruct d; try apply same_result_raise. cbn.
  destruct (_ !! "persistence") as [[]|];
    try apply same_result_raise; apply same_result_ret.
Qed.

Lemma same_result_persistence2stats_doc cfg vb d :
  same_result (persistence2stats_doc cfg d)
              (persistence2stats_doc (set_verbose vb cfg) d).
Proof.
  unfold persistence2stats_doc, document_stats.
  cbn [verbose set_verbose].
  apply same_result_bind; [|intros; apply same_result_update_persistence].
  apply same_result_bind; [apply same_result_getitem | intros pd].
  apply same_result_bind; [apply same_result_getitem | intros tokens].
  apply same_result_bind; [apply same_result_py_iter | intros toks].
  apply same_result_bind; [apply same_result_token_loop | intros st].
  apply same_result_bind; [apply same_result_write_if | intros _].
  apply same_result_ret.
Qed.

Lemma generate_same_result f g docs err err' :
  (forall d, same_result (f d) (g d)) ->
  yielded (generate f docs err) = yielded (generate g docs err') /\
  raised (generate f docs err) = raised (generate g docs err').
Proof.
  intros Hfg. revert err err'.
  induction docs as [|d docs IH]; intros err err'; cbn; [easy|].
  specialize (Hfg d err err').
  destruct (f d err) as [[e|a] e1], (g d err') as [[e'|a'] e1'];
    cbn in Hfg; try discriminate.
  - injection Hfg as ->. easy.
  - injection Hfg as ->. cbn. destruct (IH e1 e1') as [-> ->]. easy.
Qed.

Lemma silent_bind {A B} (m : Py A) (k : A -> Py B) :
  silent m -> (forall a, silent (k a)) -> silent (bind m k).
Proof.
  intros Hm Hk err. unfold bind. specialize (Hm err).
  destruct (m err) as [[e|a] e1]; cbn in *; [exact Hm|].
  rewrite Hk. exact Hm.
Qed.

Lemma silent_ret {A} (a : A) : silent (ret a).
Proof. now intros err. Qed.

Lemma silent_raise {A} (e : exn) : silent (@raise A e).
Proof. now intros err. Qed.

Lemma silent_getitem v k : silent (getitem v k).
Proof.
  destruct v; try apply silent_raise. cbn.
  destruct (_ !! k); [apply silent_ret | apply silent_raise].
Qed.

Lemma silent_to_number v : silent (to_number v).
Proof. destruct v; try apply silent_raise; apply silent_ret. Qed.

Lemma silent_py_log n : silent (py_log n).
Proof.
  destruct n as [z|f]; cbn.
  - destruct (0 <? z); [apply silent_ret | apply silent_raise].
  - destruct f; try apply silent_ret;
      destruct (SFltb _ _); (apply silent_ret || apply silent_raise).
Qed.

Lemma silent_py_int n : silent (py_int n).
Proof. destruct n as [z|[]]; try apply silent_raise; apply silent_ret. Qed.

Lemma silent_py_iter v : silent (py_iter v).
Proof. destruct v; try apply silent_raise; apply silent_ret. Qed.

Lemma silent_log_field t k : silent (log_field t k).
Proof.
  unfold log_field.
  repeat (apply silent_bind; [|intros ?]);
    auto using silent_getitem, silent_to_number, silent_py_log.
Qed.

Lemma silent_field_ge d k z : silent (field_ge d k z).
Proof.
  unfold field_ge.
  repeat (apply silent_bind; [|intros ?]);
    auto using silent_getitem, silent_to_number, silent_ret.
Qed.

Lemma silent_field_lt d k z : silent (field_lt d k z).
Proof.
  unfold field_lt.
  repeat (apply silent_bind; [|intros ?]);
    auto using silent_getitem, silent_to_number, silent_ret.
Qed.

Lemma silent_passes_filter cfg t : silent (passes_filter cfg t).
Proof.
  unfold passes_filter.
  apply silent_bind; [apply silent_getitem | intros x].
  destruct (include cfg x); [|apply silent_ret].
  apply silent_bind; [apply silent_getitem | intros y]. apply silent_ret.
Qed.

Lemma silent_token_body cfg pd st t :
  verbose cfg = false -> silent (token_body cfg pd st t).
Proof.
  intros Hq. unfold token_body. rewrite Hq.
  apply silent_bind; [apply silent_ret | intros _].
  do 3 (apply silent_bind; [apply silent_log_field | intros ?]).
  apply silent_bind; [apply silent_field_ge | intros b].
  destruct b; [apply silent_ret|].
  do 2 (apply silent_bind; [apply silent_field_ge | intros ?]).
  apply silent_bind; [apply silent_field_lt | intros short].
  destruct short; [apply silent_ret|].
  do 2 (apply silent_bind; [apply silent_field_lt | intros ?]).
  apply silent_ret.
Qed.

Lemma silent_token_loop cfg pd ts st :
  verbose cfg = false -> silent (token_loop cfg pd ts st).
Proof.
  intros Hq. revert st. induction ts as [|t ts IH]; intros st; cbn [token_loop].
  - apply silent_ret.
  - apply silent_bind; [apply silent_passes_filter | intros keep].
    destruct keep; [|apply IH].
    apply silent_bind; [now apply silent_token_body | intros st']. apply IH.
Qed.

Lemma silent_update_persistence d st : silent (update_persistence d st).
Proof.
  destruct d; try apply silent_raise. cbn.
  destruct (_ !! "persistence") as [[]|];
    try apply silent_raise; apply silent_ret.
Qed.

Lemma silent_persistence2stats_doc cfg d :
  verbose cfg = false -> silent (persistence2stats_doc cfg d).
Proof.
  intros Hq. unfold persistence2stats_doc, document_stats. rewrite Hq.
  apply silent_bind; [|intros; apply silent_update_persistence].
  apply silent_bind; [apply silent_getitem | intros pd].
  apply silent_bind; [apply silent_getitem | intros tokens].
  apply silent_bind; [apply silent_py_iter | intros toks].
  apply silent_bind; [now apply silent_token_loop | intros st].
  apply silent_bind; [apply silent_ret | intros _]. apply silent_ret.
Qed.

Lemma generate_silent f docs err :
  (forall d, silent (f d)) -> stderr_out (generate f docs err) = err.
Proof.
  intros Hf. revert err. induction docs as [|d docs IH]; intros err; cbn;
    [reflexivity|].
  specialize (Hf d err). destruct (f d err) as [[e|a] e1]; cbn in *;
    [exact Hf|].
  now rewrite IH.
Qed.

Lemma make_config_verbose mp mv inc exc vb err :
  make_config mp mv inc exc vb err =
    match make_config mp mv inc exc false err with
    | (inl e, err') => (inl e, err')
    | (inr cfg, err') => (inr (set_verbose vb cfg), err')
    end.
Proof.
  unfold make_config, bind.
  destruct (py_int mp err) as [[e|a] err1]; [reflexivity|].
  destruct (py_int mv err1) as [[e|b] err2]; reflexivity.
Qed.

Lemma make_config_silent mp mv inc exc vb : silent (make_config mp mv inc exc vb).
Proof.
  unfold make_config.
  apply silent_bind; [apply silent_py_int | intros a].
  apply silent_bind; [apply silent_py_int | intros b]. apply silent_ret.
Qed.

Lemma make_config_false mp mv inc exc err cfg err' :
  make_config mp mv inc exc false err = (inr cfg, err') -> verbose cfg = false.
Proof.
  unfold make_config, bind.
  destruct (py_int mp err) as [[e|a] err1]; [discriminate|].
  destruct (py_int mv err1) as [[e|b] err2]; [discriminate|].
  now intros [= <- _].
Qed.

(** C8: whatever the documents and the configuration, a run with
    [verbose=True] yields the same documents and ends the same way (exhausted,
    or the same exception after the same documents) as a run with
    [verbose=False]; the latter writes nothing to [sys.stderr]. *)
Theorem verbose_noninterference (rev_docs : list value)
    (min_persisted min_visible : number)
    (include exclude : option (value -> bool)) (err : stderr) :
  let loud := persistence2stats rev_docs min_persisted min_visible
                include exclude true err in
  let quiet := persistence2stats rev_docs min_persisted min_visible
                 include exclude false err in
  yielded loud = yielded quiet /\
  raised loud = raised quiet /\
  stderr_out quiet = err.
Proof.
  cbv zeta. unfold persistence2stats.
  rewrite (make_config_verbose _ _ _ _ true).
  pose proof (make_config_silent min_persisted min_visible include exclude
                false err) as Hs.
  pose proof (make_config_false min_persisted min_visible include exclude
                err) as Hq.
  destruct (make_config min_persisted min_visible include exclude false err)
    as [[e|cfg] err1]; cbn in Hs; subst err1; [easy|].
  specialize (Hq cfg err eq_refl).
  destruct (generate_same_result
              (persistence2stats_doc (set_verbose true cfg))
              (persistence2stats_doc cfg) rev_docs err err) as [Hy Hr].
  { intros d err1 err2. symmetry.
    apply (same_result_persistence2stats_doc cfg true d). }
  split; [exact Hy|]. split; [exact Hr|].
  apply generate_silent. intros d. now apply silent_persistence2stats_doc.
Qed.

(** ** Running twice *)

(** The loop reads three entries of the [persistence] record. *)
Lemma field_lt_agree pd pd' k z :
  pd' !! k = pd !! k -> field_lt (VDict pd') k z = field_lt (VDict pd) k z.
Proof. intros Hk. unfold field_lt, getitem. now rewrite Hk. Qed.

Lemma token_body_agree cfg pd pd' st t err :
  pd' !! "seconds_possible" = pd !! "seconds_possible" ->
  pd' !! "revisions_processed" = pd !! "revisions_processed" ->
  pd' !! "non_self_processed" = pd !! "non_self_processed" ->
  token_body cfg (VDict pd') st t err = token_body cfg (VDict pd) st t err.
Proof.
  intros H1 H2 H3. unfold token_body.
  now rewrite (field_lt_agree _ _ _ _ H1), (field_lt_agree _ _ _ _ H2),
    (field_lt_agree _ _ _ _ H3).
Qed.

Lemma token_loop_agree cfg pd pd' ts st err :
  pd' !! "seconds_possible" = pd !! "seconds_possible" ->
  pd' !! "revisions_processed" = pd !! "revisions_processed" ->
  pd' !! "non_self_processed" = pd !! "non_self_processed" ->
  token_loop cfg (VDict pd') ts st err = token_loop cfg (VDict pd) ts st err.
Proof.
  intros H1 H2 H3. revert st err.
  induction ts as [|t ts IH]; intros st err; [reflexivity|].
  cbn [token_loop]. unfold bind at 1 3.
  destruct (passes_filter cfg t err) as [[e|[]] err1]; [reflexivity| |apply IH].
  unfold bind. rewrite (token_body_agree _ _ _ _ _ _ H1 H2 H3).
  destruct (token_body cfg (VDict pd) st t err1) as [[e|st'] err2];
    [reflexivity | apply IH].
Qed.

Lemma dict_update_other pd st k :
  k ∉ (stats_items st).*1 ->
  dict_update pd (stats_items st) !! k = pd !! k.
Proof.
  intros Hk. rewrite dict_update_stats. cbn in Hk.
  rewrite !not_elem_of_cons in Hk.
  destruct Hk as (? & ? & ? & ? & ? & ? & ? & ? & _).
  now rewrite !lookup_insert_ne by congruence.
Qed.

Lemma dict_update_twice pd st :
  dict_update (dict_update pd (stats_items st)) (stats_items st) =
    dict_update pd (stats_items st).
Proof.
  rewrite !dict_update_stats. apply map_eq. intros k.
  rewrite !lookup_insert. repeat case_decide; reflexivity.
Qed.

Lemma document_stats_updated cfg m pd st err :
  m !! "persistence" = Some (VDict pd) ->
  document_stats cfg
    (VDict (<["persistence" := VDict (dict_update pd (stats_items st))]> m))
    err =
  document_stats cfg (VDict m) err.
Proof.
  intros Hm. unfold document_stats.
  rewrite (bind_inr _ _ _ _ _ (getitem_Some _ _ _ _ Hm)).
  rewrite (bind_inr _ _ _ _ _
             (getitem_Some _ _ _ _ (lookup_insert_eq m "persistence" _))).
  unfold bind, getitem.
  rewrite (dict_update_other pd st "tokens") by not_stats_key.
  destruct (pd !! "tokens") as [tokens|]; [|reflexivity]. unfold ret at 1 4.
  destruct (py_iter tokens err) as [[e|toks] err1]; [reflexivity|].
  rewrite (token_loop_agree cfg pd); [reflexivity| | |];
    apply dict_update_other; not_stats_key.
Qed.

Lemma persistence2stats_doc_inr cfg d d' err err' :
  persistence2stats_doc cfg d err = (inr d', err') ->
  exists m pd st,
    d = VDict m /\ m !! "persistence" = Some (VDict pd) /\
    document_stats cfg d err = (inr st, err') /\
    d' = VDict (<["persistence" :=
                    VDict (dict_update pd (stats_items st))]> m).
Proof.
  unfold persistence2stats_doc, bind.
  destruct (document_stats cfg d err) as [[e|st] err1]; [discriminate|].
  unfold update_persistence.
  destruct d as [| | | | |m]; try discriminate.
  destruct (m !! "persistence") as [[| | | | |pd]|] eqn:Hm; try discriminate.
  intros [= <- <-]. now exists m, pd, st.
Qed.

Lemma persistence2stats_doc_twice cfg d d' err err' :
  persistence2stats_doc cfg d err = (inr d', err') ->
  persistence2stats_doc cfg d' err = (inr d', err').
Proof.
  intros (m & pd & st & -> & Hm & Hst & ->)%persistence2stats_doc_inr.
  erewrite persistence2stats_doc_ok.
  - now rewrite dict_update_twice, insert_insert_eq.
  - apply lookup_insert_eq.
  - now rewrite document_stats_updated.
Qed.

Lemma generate_twice f docs err :
  (forall d d' e e', f d e = (inr d', e') -> f d' e = (inr d', e')) ->
  raised (generate f docs err) = None ->
  generate f (yielded (generate f docs err)) err = generate f docs err.
Proof.
  intros Hf. revert err. induction docs as [|d docs IH]; intros err;
    [reflexivity|].
  cbn. destruct (f d err) as [[e|d'] err1] eqn:Hd; [discriminate|].
  cbn. intros Hr. rewrite (Hf _ _ _ _ Hd). now rewrite (IH _ Hr).
Qed.

Lemma drop_tokens_doc_inr d d' err err' :
  drop_tokens_doc d err = (inr d', err') ->
  exists m pd,
    d = VDict m /\ m !! "persistence" = Some (VDict pd) /\ err' = err /\
    d' = VDict (<["persistence" := VDict (delete "tokens" pd)]> m).
Proof.
  unfold drop_tokens_doc.
  destruct d as [| | | | |m]; try discriminate.
  destruct (m !! "persistence") as [[| | | | |pd]|] eqn:Hm; try discriminate.
  intros [= <- <-]. now exists m, pd.
Qed.

(** C5: when a run over a document list ends without an exception, running
    [persistence2stats] again, with the same arguments, over the documents
    it yielded (their [tokens] still in place) yields the same documents
    again; document by document, the second run computes the same
    [stats_doc] as the first.  A document that went through [drop_tokens]
    has no [tokens]: aggregation raises [KeyError('tokens')] on it. *)
Theorem aggregation_twice (rev_docs : list value)
    (min_persisted min_visible : number)
    (include exclude : option (value -> bool)) (vb : bool) (err : stderr) :
  let first := persistence2stats rev_docs min_persisted min_visible
                 include exclude vb err in
  raised first = None ->
  persistence2stats (yielded first) min_persisted min_visible
    include exclude vb err = first /\
  (forall cfg d d' e e',
     persistence2stats_doc cfg d e = (inr d', e') ->
     document_stats cfg d' e = document_stats cfg d e /\
     persistence2stats_doc cfg d' e = (inr d', e')) /\
  (forall cfg d d' e e' e2,
     drop_tokens_doc d e = (inr d', e') ->
     document_stats cfg d' e2 = (inl (KeyError "tokens"), e2) /\
     persistence2stats_doc cfg d' e2 = (inl (KeyError "tokens"), e2)).
Proof.
  cbv zeta. intros Hr. split; [|split].
  - unfold persistence2stats in *.
    destruct (make_config min_persisted min_visible include exclude vb err)
      as [[e|cfg] err1]; [discriminate|].
    apply generate_twice; [|exact Hr].
    intros d d' e e'. apply persistence2stats_doc_twice.
  - intros cfg d d' e e' Hd.
    split; [|exact (persistence2stats_doc_twice _ _ _ _ _ Hd)].
    apply persistence2stats_doc_inr in Hd as (m & pd & st & -> & Hm & _ & ->).
    now apply document_stats_updated.
  - intros cfg d d' e e' e2 (m & pd & -> & Hm & -> & ->)%drop_tokens_doc_inr.
    assert (Hst : document_stats cfg
              (VDict (<["persistence" := VDict (delete "tokens" pd)]> m)) e2 =
            (inl (KeyError "tokens"), e2)).
    { unfold document_stats.
      rewrite (bind_inr _ _ _ _ _
                 (getitem_Some _ _ _ _ (lookup_insert_eq m "persistence" _))).
      apply bind_inl, getitem_None, lookup_delete_eq. }
    split; [exact Hst|]. unfold persistence2stats_doc. now apply bind_inl.
Qed.

(** ** Thresholds *)

Lemma make_config_inr mp mv inc exc vb e0 cfg e1 :
  make_config mp mv inc exc vb e0 = (inr cfg, e1) ->
  py_int mp e0 = (inr (min_persisted cfg), e0) /\
  py_int mv e0 = (inr (min_visible cfg), e0) /\
  include cfg = default (fun _ => true) inc /\
  exclude cfg = default (fun _ => false) exc /\
  verbose cfg = vb /\ e1 = e0.
Proof.
  unfold make_config, bind.
  pose proof (silent_py_int mp e0) as Ha.
  destruct (py_int mp e0) as [[e|a] ea]; [discriminate|].
  cbn in Ha. subst ea.
  pose proof (silent_py_int mv e0) as Hb.
  destruct (py_int mv e0) as [[e|b] eb]; [discriminate|].
  cbn in Hb. subst eb. now intros [= <- <-].
Qed.

Lemma cond_Zopp_mul s a b : cond_Zopp s a * b = cond_Zopp s (a * b).
Proof. destruct s; cbn; lia. Qed.

Lemma le_of_compare a b :
  match a ?= b with Lt | Eq => true | Gt => false end = true -> a <= b.
Proof. destruct (Z.compare_spec a b); [lia | lia | discriminate]. Qed.

(** [int(f)] is no larger than any [int] that is [>= f]. *)
Lemma py_int_le (f : float) (mv sv : Z) err err' :
  py_int (Float f) err = (inr mv, err') ->
  Z_ge_float sv f = true -> mv <= sv.
Proof.
  unfold Z_ge_float, py_int, SFcompare_Z, ret, raise.
  destruct f as [s|s| |s m e]; try discriminate.
  - intros [= <- _]. apply le_of_compare.
  - intros [= <- _]. destruct e as [|p|p]; intros Hc%le_of_compare.
    + cbn [Z.shiftl]. rewrite Z.pow_0_r, Z.mul_1_r in Hc. exact Hc.
    + rewrite Z.shiftl_mul_pow2 by lia. rewrite <- cond_Zopp_mul. lia.
    + change (Z.shiftl (Z.pos m) (Z.neg p))
        with (Z.shiftr (Z.pos m) (Z.pos p)).
      rewrite Z.shiftr_div_pow2 by lia.
      assert (Hp : 0 < 2 ^ Z.pos p) by (apply Z.pow_pos_nonneg; lia).
      destruct s; cbn [cond_Zopp] in *.
      * enough (- sv <= Z.pos m / 2 ^ Z.pos p) by lia.
        apply Z.div_le_lower_bound; lia.
      * apply Z.div_le_upper_bound; lia.
Qed.

(** [SFfloor] is the floor: [z <= f < z + 1]. *)
Lemma SFfloor_spec f z :
  SFfloor f = Some z ->
  SFcompare_Z f z <> Some Lt /\ SFcompare_Z f (z + 1) = Some Lt.
Proof.
  unfold SFfloor, SFcompare_Z. destruct f as [s|s| |s m e]; try discriminate.
  - intros [= <-]. split; [discriminate | reflexivity].
  - intros [= <-]. set (n := cond_Zopp s (Z.pos m)).
    destruct e as [|p|p].
    + rewrite Z.shiftl_0_r, Z.pow_0_r, Z.mul_1_r.
      rewrite Z.compare_refl. split; [discriminate|].
      f_equal. apply Z.compare_lt_iff. lia.
    + rewrite Z.shiftl_mul_pow2 by lia.
      rewrite Z.compare_refl. split; [discriminate|].
      f_equal. apply Z.compare_lt_iff. lia.
    + change (Z.shiftl n (Z.neg p)) with (Z.shiftr n (Z.pos p)).
      rewrite Z.shiftr_div_pow2 by lia.
      assert (Hp : 0 < 2 ^ Z.pos p) by (apply Z.pow_pos_nonneg; lia).
      pose proof (Z.mul_div_le n _ Hp) as Hle.
      pose proof (Z.mul_succ_div_gt n _ Hp) as Hgt.
      rewrite (Z.mul_comm (2 ^ Z.pos p)) in Hle, Hgt.
      rewrite <- Z.add_1_r in Hgt.
      generalize dependent (n / 2 ^ Z.pos p). intros q Hle Hgt.
      split.
      * intros [= Hc]. rewrite Z.compare_lt_iff in Hc. lia.
      * f_equal. apply Z.compare_lt_iff. lia.
Qed.

Lemma py_int_floor f z err :
  SFnonneg f = true -> SFfloor f = Some z ->
  py_int (Float f) err = (inr z, err).
Proof.
  destruct f as [s|s| |[] m e]; cbn; try discriminate.
  - now intros _ [= <-].
  - now intros _ [= <-].
Qed.

(** C10: for a non-negative finite float threshold [f],
    [persistence2stats] runs exactly as with the integer threshold
    [floor(f)]: line 126 replaces [min_visible] by [int(min_visible)], and
    that integer is what both [seconds_visible >= min_visible] and
    [seconds_possible < min_visible] compare against. *)
Theorem min_visible_is_truncated (rev_docs : list value) (mp : number)
    (f : float) (z : Z) (inc exc : option (value -> bool)) (vb : bool)
    (err : stderr) :
  SFnonneg f = true -> SFfloor f = Some z ->
  (SFcompare_Z f z <> Some Lt /\ SFcompare_Z f (z + 1) = Some Lt) /\
  persistence2stats rev_docs mp (Float f) inc exc vb err =
    persistence2stats rev_docs mp (Int z) inc exc vb err /\
  (forall cfg e1,
     make_config mp (Float f) inc exc vb err = (inr cfg, e1) ->
     min_visible cfg = z /\
     forall tk w,
       by_time cfg tk = (z <=? seconds_visible tk) /\
       (seconds_possible w <? min_visible cfg) = (seconds_possible w <? z)).
Proof.
  intros Hf Hz. split; [now apply SFfloor_spec|].
  assert (Hcfg : make_config mp (Float f) inc exc vb err =
                 make_config mp (Int z) inc exc vb err).
  { unfold make_config, bind.
    pose proof (silent_py_int mp err) as Ha.
    destruct (py_int mp err) as [[e|a] ea]; [reflexivity|].
    cbn in Ha. subst ea. now rewrite (py_int_floor f z err Hf Hz). }
  split.
  - unfold persistence2stats. now rewrite Hcfg.
  - intros cfg e1 Hc. rewrite Hcfg in Hc.
    apply make_config_inr in Hc as (_ & Hmv & _).
    injection Hmv as Hmv. unfold by_time. rewrite <- Hmv. easy.
Qed.

(** C2, for the thresholds [int] accepts: whatever finite float the
    threshold [min_visible] is, line 126 converts it, and a retained token
    whose [seconds_visible] is [>=] that float adds one to
    [persistent_tokens] and one to [non_self_persistent_tokens], whatever its
    [persisted] and [non_self_persisted] are; the two flags stay as they were
    and the [persistence] record is not read for it ([pd] is any value). *)
Theorem time_threshold_priority (f : float) (mp : number) (zp : Z)
    (inc exc : option (value -> bool)) (vb : bool) (e0 : stderr)
    (pd t : value) (tk : token) (rest : list value)
    (st : stats_doc) (err : stderr) :
  finite f = true ->
  py_int mp e0 = (inr zp, e0) ->
  read_token t = Some tk -> token_ok tk ->
  Z_ge_float (seconds_visible tk) f = true ->
  exists cfg,
    make_config mp (Float f) inc exc vb e0 = (inr cfg, e0) /\
    (retained cfg tk = true ->
     token_loop cfg pd (t :: rest) st err =
       token_loop cfg pd rest
         {| tokens_added := tokens_added st + 1;
            persistent_tokens := persistent_tokens st + 1;
            non_self_persistent_tokens := non_self_persistent_tokens st + 1;
            sum_log_persisted :=
              add_float (sum_log_persisted st) (log (Int (persisted tk + 1)));
            sum_log_non_self_persisted :=
              add_float (sum_log_non_self_persisted st)
                (log (Int (non_self_persisted tk + 1)));
            sum_log_seconds_visible :=
              add_float (sum_log_seconds_visible st)
                (log (Int (seconds_visible tk + 1)));
            censored := censored st;
            non_self_censored := non_self_censored st |}
         (err ++ dot cfg)).
Proof.
  intros Hf Hmp Ht Hok Hge.
  assert (Hz : exists z, py_int (Float f) e0 = (inr z, e0))
    by (destruct f; try discriminate; eexists; reflexivity).
  destruct Hz as (z & Hz).
  exists {| min_persisted := zp; min_visible := z;
            include := default (fun _ => true) inc;
            exclude := default (fun _ => false) exc; verbose := vb |}.
  split.
  { unfold make_config.
    now rewrite (bind_inr _ _ _ _ _ Hmp), (bind_inr _ _ _ _ _ Hz). }
  intros Hkeep.
  match goal with
  | |- token_loop ?c _ _ _ _ = _ => set (cfg := c) in *
  end.
  assert (Hbt : by_time cfg tk = true).
  { unfold by_time. apply Z.leb_le. exact (py_int_le _ _ _ _ _ Hz Hge). }
  cbn [token_loop].
  rewrite (bind_inr _ _ _ _ _ (passes_filter_token _ _ _ _ Ht)), Hkeep.
  now rewrite (bind_inr _ _ _ _ _ (token_body_by_time _ pd st _ _ _ Ht Hok Hbt)).
Qed.

(** ** Censoring *)

Lemma tally_censored cfg w st tk :
  (censored st = true -> censored (tally cfg w st tk) = true) /\
  (non_self_censored st = true ->
   non_self_censored (tally cfg w st tk) = true).
Proof.
  unfold tally. destruct (retained cfg tk); [|easy].
  unfold classify; cbn. split; intros ->; reflexivity.
Qed.

Lemma aggregate_censored cfg w tks st :
  (censored st = true -> censored (aggregate cfg w tks st) = true) /\
  (non_self_censored st = true ->
   non_self_censored (aggregate cfg w tks st) = true).
Proof.
  unfold aggregate. revert st. induction tks as [|tk tks IH]; intros st;
    [easy|].
  cbn [foldl]. destruct (tally_censored cfg w st tk) as [H1 H2].
  destruct (IH (tally cfg w st tk)) as [H3 H4]. auto.
Qed.

(** C3, with the thresholds the code compares against: [min_persisted cfg]
    is [int(min_persisted)] and [min_visible cfg] is [int(min_visible)].  A
    retained token with [seconds_visible < int(min_visible)] sets both flags
    when [seconds_possible < int(min_visible)]; otherwise it sets [censored]
    exactly when [revisions_processed < int(min_persisted)] and
    [non_self_censored] exactly when
    [non_self_processed < int(min_persisted)], and leaves a flag that is not
    set as it was.  A flag that is set stays set to the end of the loop. *)
Theorem censoring_rule (mp mv : number) (inc exc : option (value -> bool))
    (vb : bool) (e0 e1 : stderr) (cfg : config) (pd : gmap string value)
    (w : window) (t : value) (tk : token) (rest : list value)
    (tks : list token) (st : stats_doc) (err : stderr) :
  make_config mp mv inc exc vb e0 = (inr cfg, e1) ->
  read_window pd = Some w ->
  read_token t = Some tk -> token_ok tk -> retained cfg tk = true ->
  seconds_visible tk < min_visible cfg ->
  read_tokens rest = Some tks -> Forall token_ok tks ->
  let short := seconds_possible w <? min_visible cfg in
  let few := revisions_processed w <? min_persisted cfg in
  let few_ns := non_self_processed w <? min_persisted cfg in
  py_int mp e0 = (inr (min_persisted cfg), e0) /\
  py_int mv e0 = (inr (min_visible cfg), e0) /\
  exists st' st'',
    token_body cfg (VDict pd) st t err = (inr st', err ++ dot cfg) /\
    censored st' = (if short then true else if few then true
                    else censored st) /\
    non_self_censored st' = (if short then true else if few_ns then true
                             else non_self_censored st) /\
    token_loop cfg (VDict pd) (t :: rest) st err =
      (inr st'', err ++ dot cfg ++ dots cfg tks) /\
    (censored st' = true -> censored st'' = true) /\
    (non_self_censored st' = true -> non_self_censored st'' = true).
Proof.
  intros Hcfg Hw Ht Hok Hkeep Hsv Hrest Hoks short few few_ns.
  destruct (make_config_inr _ _ _ _ _ _ _ _ Hcfg) as (Hmp & Hmv & _).
  split; [exact Hmp|]. split; [exact Hmv|].
  assert (Hbt : by_time cfg tk = false).
  { unfold by_time. apply Z.leb_gt. exact Hsv. }
  exists (classify cfg w st tk),
    (aggregate cfg w tks (classify cfg w st tk)).
  split; [now apply token_body_typed|].
  split; [|split; [|split]].
  - unfold classify; cbn. rewrite Hbt. fold short few.
    now destruct short, few, (censored st).
  - unfold classify; cbn. rewrite Hbt. fold short few_ns.
    now destruct short, few_ns, (non_self_censored st).
  - cbn [token_loop].
    rewrite (bind_inr _ _ _ _ _ (passes_filter_token _ _ _ _ Ht)), Hkeep.
    rewrite (bind_inr _ _ _ _ _ (token_body_typed _ _ _ _ _ _ _ Ht Hok Hw)).
    rewrite (token_loop_typed _ _ _ _ _ _ _ Hrest Hoks Hw).
    now rewrite app_assoc.
  - apply aggregate_censored.
Qed.

(** ** Bounds on the statistics *)

(** Rounding a non-negative number never gives a negative one or a NaN. *)
Lemma iter_pos_invariant {A} (P : A -> Prop) (f : A -> A) n x :
  (forall y, P y -> P (f y)) -> P x -> P (SpecFloat.iter_pos f n x).
Proof.
  intros Hf. revert x. induction n as [n IH|n IH|]; intros x Hx; cbn; auto.
Qed.

Lemma shr_1_nonneg mrs : 0 <= shr_m mrs -> 0 <= shr_m (shr_1 mrs).
Proof.
  destruct mrs as [m r s]. cbn. destruct m as [|[p|p|]|p]; cbn; lia.
Qed.

Lemma shr_nonneg mrs e n : 0 <= shr_m mrs -> 0 <= shr_m (shr mrs e n).1.
Proof.
  intros Hm. destruct n as [|p|p]; cbn; try exact Hm.
  now apply iter_pos_invariant; [apply shr_1_nonneg|].
Qed.

Lemma shr_fexp_nonneg pr em m e l :
  0 <= m -> 0 <= shr_m (shr_fexp pr em m e l).1.
Proof.
  intros Hm. unfold shr_fexp. apply shr_nonneg.
  destruct l as [|[]]; exact Hm.
Qed.

Lemma round_nearest_even_nonneg m l : 0 <= m -> 0 <= round_nearest_even m l.
Proof.
  intros Hm. unfold round_nearest_even.
  destruct l as [|[]]; try destruct (Z.even m); lia.
Qed.

Lemma binary_round_aux_nonneg pr em m e l :
  0 <= m -> SFnonneg (binary_round_aux pr em false m e l) = true.
Proof.
  intros Hm. unfold binary_round_aux.
  pose proof (shr_fexp_nonneg pr em m e l Hm) as H1.
  destruct (shr_fexp pr em m e l) as [mrs' e']. cbn [fst] in H1.
  pose proof (shr_fexp_nonneg pr em _ e' loc_Exact
                (round_nearest_even_nonneg _ (loc_of_shr_record mrs') H1))
    as H2.
  destruct (shr_fexp pr em _ e' loc_Exact) as [mrs'' e'']. cbn [fst] in H2.
  destruct (shr_m mrs'') as [|p|p]; [reflexivity | | lia].
  now destruct (e'' <=? em - pr).
Qed.

Lemma binary_normalize_nonneg pr em m e :
  0 <= m -> SFnonneg (binary_normalize pr em m e false) = true.
Proof.
  intros Hm. destruct m as [|p|p]; [reflexivity | | lia].
  unfold binary_normalize, binary_round.
  destruct (shl_align _ _ _) as [mz ez]. now apply binary_round_aux_nonneg.
Qed.

Lemma SFnonneg_cases f :
  SFnonneg f = true ->
  (exists s, f = S754_zero s) \/ f = S754_infinity false \/
  (exists m e, f = S754_finite false m e).
Proof.
  destruct f as [s|[]| |[] m e]; cbn; try discriminate; eauto.
Qed.

Lemma SF64add_nonneg x y :
  SFnonneg x = true -> SFnonneg y = true -> SFnonneg (SF64add x y) = true.
Proof.
  intros [[sx ->]|[->|(mx & ex & ->)]]%SFnonneg_cases
         [[sy ->]|[->|(my & ey & ->)]]%SFnonneg_cases;
    try reflexivity.
  - now destruct sx, sy.
  - unfold SF64add, SFadd. cbn [cond_Zopp]. now apply binary_normalize_nonneg.
Qed.

Lemma add_float_nonneg acc f :
  nonneg acc = true -> SFnonneg f = true -> nonneg (add_float acc f) = true.
Proof.
  destruct acc as [z|g]; cbn [nonneg add_float]; intros Hacc Hf.
  - apply SF64add_nonneg; [|exact Hf].
    apply binary_normalize_nonneg. now apply Z.leb_le.
  - now apply SF64add_nonneg.
Qed.

Lemma tally_bounded cfg w st tk :
  log_ok tk -> bounded st -> bounded (tally cfg w st tk).
Proof.
  intros (Hp & Hq & Hs) (H1 & H2 & H3 & H4 & H5). unfold tally.
  destruct (retained cfg tk); [|easy].
  unfold bounded, classify; cbn.
  repeat split; try (now apply add_float_nonneg);
    destruct (by_time cfg tk), (min_persisted cfg <=? persisted tk),
      (min_persisted cfg <=? non_self_persisted tk); cbn; lia.
Qed.

Lemma aggregate_bounded cfg w tks st :
  Forall log_ok tks -> bounded st -> bounded (aggregate cfg w tks st).
Proof.
  unfold aggregate. intros Hlog. revert st.
  induction Hlog as [|tk tks Htk _ IH]; intros st Hst; [exact Hst|].
  cbn [foldl]. now apply IH, tally_bounded.
Qed.

Lemma aggregate_tokens_added cfg w tks st :
  tokens_added (aggregate cfg w tks st) =
    tokens_added st +
    Z.of_nat (length (filter (fun tk => retained cfg tk = true) tks)).
Proof.
  unfold aggregate. revert st.
  induction tks as [|tk tks IH]; intros st; cbn [foldl].
  - cbn. lia.
  - rewrite IH, filter_cons. unfold tally.
    destruct (decide (retained cfg tk = true)) as [->|Hn].
    + cbn. lia.
    + apply not_true_is_false in Hn. rewrite Hn. lia.
Qed.

(** C9: on a well-formed document whose tokens [math.log] maps to
    non-negative numbers, the statistics satisfy
    [0 <= persistent_tokens <= tokens_added],
    [0 <= non_self_persistent_tokens <= tokens_added] and [0 <= sum] for
    each of the three sums; [tokens_added] is the number of retained
    tokens. *)
Theorem statistics_bounds (cfg : config) (m pd : gmap string value)
    (ts : list value) (tks : list token) (w : window) (err : stderr) :
  m !! "persistence" = Some (VDict pd) ->
  pd !! "tokens" = Some (VList ts) ->
  read_tokens ts = Some tks -> Forall token_ok tks ->
  read_window pd = Some w ->
  Forall log_ok tks ->
  exists st err',
    document_stats cfg (VDict m) err = (inr st, err') /\
    tokens_added st =
      Z.of_nat (length (filter (fun tk => retained cfg tk = true) tks)) /\
    0 <= persistent_tokens st <= tokens_added st /\
    0 <= non_self_persistent_tokens st <= tokens_added st /\
    nonneg (sum_log_persisted st) = true /\
    nonneg (sum_log_non_self_persisted st) = true /\
    nonneg (sum_log_seconds_visible st) = true.
Proof.
  intros Hm Hpd Hts Hok Hw Hlog.
  eexists _, _. split; [now apply (document_stats_typed cfg m pd ts tks w)|].
  split; [now rewrite aggregate_tokens_added|].
  apply aggregate_bounded; [exact Hlog|]. unfold bounded. cbn. lia.
Qed.

(** ** Token order *)

Lemma read_tokens_Permutation ts ts' tks :
  Permutation ts ts' -> read_tokens ts = Some tks ->
  exists tks', read_tokens ts' = Some tks' /\ Permutation tks tks'.
Proof.
  intros Hp. revert tks.
  induction Hp as [|t ts ts' _ IH|a b ts|ts1 ts2 ts3 _ IH1 _ IH2]; intros tks.
  - intros [= <-]. now exists [].
  - intros (tk & tks0 & -> & Ht & Hts)%read_tokens_cons.
    destruct (IH _ Hts) as (tks' & Hts' & Hperm).
    exists (tk :: tks'). cbn. rewrite Ht, Hts'. now split; [|constructor].
  - intros (tb & tks0 & -> & Hb & Hts)%read_tokens_cons.
    apply read_tokens_cons in Hts as (ta & tks1 & -> & Ha & Hts).
    exists (ta :: tb :: tks1). cbn. rewrite Ha, Hb, Hts.
    split; [reflexivity | constructor].
  - intros Hts. destruct (IH1 _ Hts) as (tks2 & Hts2 & Hp12).
    destruct (IH2 _ Hts2) as (tks3 & Hts3 & Hp23).
    exists tks3. split; [exact Hts3 | now transitivity tks2].
Qed.

Lemma same_counts_refl st : same_counts st st.
Proof. now unfold same_counts. Qed.

Lemma same_counts_trans st1 st2 st3 :
  same_counts st1 st2 -> same_counts st2 st3 -> same_counts st1 st3.
Proof.
  unfold same_counts. intros (-> & -> & -> & -> & ->). easy.
Qed.

Lemma tally_same_counts cfg w st st' tk :
  same_counts st st' ->
  same_counts (tally cfg w st tk) (tally cfg w st' tk).
Proof.
  unfold same_counts, tally. intros (H1 & H2 & H3 & H4 & H5).
  destruct (retained cfg tk); [|easy].
  unfold classify; cbn. now rewrite H1, H2, H3, H4, H5.
Qed.

Lemma tally_swap cfg w st a b :
  same_counts (tally cfg w (tally cfg w st a) b)
              (tally cfg w (tally cfg w st b) a).
Proof.
  unfold same_counts, tally.
  destruct (retained cfg a), (retained cfg b); try easy.
  unfold classify; cbn.
  repeat split; try lia;
    destruct (by_time cfg a), (by_time cfg b),
      (seconds_possible w <? min_visible cfg),
      (revisions_processed w <? min_persisted cfg),
      (non_self_processed w <? min_persisted cfg),
      (censored st), (non_self_censored st); reflexivity.
Qed.

Lemma aggregate_same_counts cfg w tks st st' :
  same_counts st st' ->
  same_counts (aggregate cfg w tks st) (aggregate cfg w tks st').
Proof.
  unfold aggregate. revert st st'.
  induction tks as [|tk tks IH]; intros st st' Hst; [exact Hst|].
  cbn [foldl]. now apply IH, tally_same_counts.
Qed.

Lemma aggregate_Permutation cfg w tks tks' st :
  Permutation tks tks' ->
  same_counts (aggregate cfg w tks st) (aggregate cfg w tks' st).
Proof.
  intros Hp. revert st.
  induction Hp as [|tk tks tks' _ IH|a b tks|tks1 tks2 tks3 _ IH1 _ IH2];
    intros st.
  - apply same_counts_refl.
  - apply IH.
  - unfold aggregate. cbn [foldl].
    apply (aggregate_same_counts cfg w tks), tally_swap.
  - eapply same_counts_trans; [apply IH1 | apply IH2].
Qed.

(** Each sum is the accumulation, in token order, of its terms. *)
Lemma log_terms_cons cfg field tk tks :
  log_terms cfg field (tk :: tks) =
    (if retained cfg tk then [log (Int (field tk + 1))] else []) ++
    log_terms cfg field tks.
Proof.
  unfold log_terms. rewrite filter_cons.
  destruct (decide (retained cfg tk = true)) as [->|Hn]; [reflexivity|].
  apply not_true_is_false in Hn. now rewrite Hn.
Qed.

Lemma aggregate_sums cfg w tks st :
  sum_log_persisted (aggregate cfg w tks st) =
    accumulate (sum_log_persisted st) (log_terms cfg persisted tks) /\
  sum_log_non_self_persisted (aggregate cfg w tks st) =
    accumulate (sum_log_non_self_persisted st)
      (log_terms cfg non_self_persisted tks) /\
  sum_log_seconds_visible (aggregate cfg w tks st) =
    accumulate (sum_log_seconds_visible st)
      (log_terms cfg seconds_visible tks).
Proof.
  unfold aggregate, accumulate. revert st.
  induction tks as [|tk tks IH]; intros st; [easy|].
  cbn [foldl]. rewrite !log_terms_cons.
  destruct (IH (tally cfg w st tk)) as (-> & -> & ->).
  unfold tally. now destruct (retained cfg tk).
Qed.

Lemma log_terms_Permutation cfg field tks tks' :
  Permutation tks tks' ->
  Permutation (log_terms cfg field tks) (log_terms cfg field tks').
Proof. intros Hp. unfold log_terms. now rewrite Hp. Qed.

Lemma read_window_insert_tokens pd v :
  read_window (<["tokens" := v]> pd) = read_window pd.
Proof.
  unfold read_window, read_int. now rewrite !lookup_insert_ne by congruence.
Qed.

(** C6, for what the order of the tokens cannot change: on a well-formed
    document, [tokens_added], [persistent_tokens],
    [non_self_persistent_tokens] and the two censoring flags are the same
    for every permutation of the token list, and each of the three sums
    accumulates a permutation of the same terms [log(value + 1)]; the sums
    are accumulated in token order in binary64. *)
Theorem token_order (cfg : config) (m pd : gmap string value)
    (ts ts' : list value) (tks : list token) (w : window) (err : stderr) :
  m !! "persistence" = Some (VDict pd) ->
  pd !! "tokens" = Some (VList ts) ->
  read_tokens ts = Some tks -> Forall token_ok tks ->
  read_window pd = Some w ->
  Permutation ts ts' ->
  exists tks' st st' e e',
    Permutation tks tks' /\
    document_stats cfg (VDict m) err = (inr st, e) /\
    document_stats cfg
      (VDict (<["persistence" := VDict (<["tokens" := VList ts']> pd)]> m))
      err = (inr st', e') /\
    tokens_added st = tokens_added st' /\
    persistent_tokens st = persistent_tokens st' /\
    non_self_persistent_tokens st = non_self_persistent_tokens st' /\
    censored st = censored st' /\
    non_self_censored st = non_self_censored st' /\
    sum_log_persisted st =
      accumulate (Int 0) (log_terms cfg persisted tks) /\
    sum_log_persisted st' =
      accumulate (Int 0) (log_terms cfg persisted tks') /\
    Permutation (log_terms cfg persisted tks)
      (log_terms cfg persisted tks') /\
    sum_log_non_self_persisted st =
      accumulate (Int 0) (log_terms cfg non_self_persisted tks) /\
    sum_log_non_self_persisted st' =
      accumulate (Int 0) (log_terms cfg non_self_persisted tks') /\
    Permutation (log_terms cfg non_self_persisted tks)
      (log_terms cfg non_self_persisted tks') /\
    sum_log_seconds_visible st =
      accumulate (Int 0) (log_terms cfg seconds_visible tks) /\
    sum_log_seconds_visible st' =
      accumulate (Int 0) (log_terms cfg seconds_visible tks') /\
    Permutation (log_terms cfg seconds_visible tks)
      (log_terms cfg seconds_visible tks').
Proof.
  intros Hm Hpd Hts Hok Hw Hperm.
  destruct (read_tokens_Permutation _ _ _ Hperm Hts) as (tks' & Hts' & Hp).
  assert (Hok' : Forall token_ok tks') by now rewrite <- Hp.
  exists tks', (aggregate cfg w tks stats_init),
    (aggregate cfg w tks' stats_init).
  eexists _, _. split; [exact Hp|].
  split; [now apply (document_stats_typed cfg m pd ts tks w)|].
  split.
  { apply (document_stats_typed cfg _ (<["tokens" := VList ts']> pd) ts' tks' w);
      try assumption.
    - apply lookup_insert_eq.
    - apply lookup_insert_eq.
    - now rewrite read_window_insert_tokens. }
  destruct (aggregate_Permutation cfg w _ _ stats_init Hp)
    as (H1 & H2 & H3 & H4 & H5).
  destruct (aggregate_sums cfg w tks stats_init) as (S1 & S2 & S3).
  destruct (aggregate_sums cfg w tks' stats_init) as (S1' & S2' & S3').
  repeat split; try assumption; now apply log_terms_Permutation.
Qed.

End Facts.

(** ** The theorems at concrete documents *)


Lemma drop_tokens_witness :
  exists m' pd',
    drop_tokens [scenario_A] [] =
      {| yielded := [VDict m']; raised := None; stderr_out := [] |} /\
    m' !! "persistence" = Some (VDict pd') /\
    pd' !! "tokens" = None /\
    (forall k, k <> "tokens" ->
       pd' !! k =
       example_persistence [example_token "x" 6 2 100] 40000 6 3 !! k) /\
    (forall k, k <> "persistence" ->
       m' !! k =
       (<["persistence" := VDict (example_persistence
            [example_token "x" 6 2 100] 40000 6 3)]> example_fields) !! k) /\
    (example_persistence [example_token "x" 6 2 100] 40000 6 3 !! "tokens"
       = None ->
     m' = <["persistence" := VDict (example_persistence
             [example_token "x" 6 2 100] 40000 6 3)]> example_fields).
Proof.
  exact (drop_tokens_frame
           (<["persistence" := VDict (example_persistence
                [example_token "x" 6 2 100] 40000 6 3)]> example_fields)
           (example_persistence [example_token "x" 6 2 100] 40000 6 3)
           [] eq_refl).
Defined.

Lemma aggregation_twice_witness :
  let first := persistence2stats [scenario_A] (Int 5) (Int 36000) None None
                 true [] in
  raised first = None /\
  persistence2stats (yielded first) (Int 5) (Int 36000) None None true [] =
    first.
Proof.
  cbv zeta. split; [reflexivity|].
  exact (proj1 (aggregation_twice [scenario_A] (Int 5) (Int 36000) None None
                  true [] eq_refl)).
Defined.

Lemma min_visible_is_truncated_witness :
  SFnonneg SF_1_5 = true /\ SFfloor SF_1_5 = Some 1 /\
  persistence2stats [scenario_A] (Int 5) (Float SF_1_5) None None false [] =
    persistence2stats [scenario_A] (Int 5) (Int 1) None None false [].
Proof.
  split; [reflexivity|]. split; [reflexivity|].
  exact (proj1 (proj2 (min_visible_is_truncated [scenario_A] (Int 5) SF_1_5 1
                         None None false [] eq_refl eq_refl))).
Defined.

(** A token seen for 2 seconds against the threshold 1.5, with
    [persisted = non_self_persisted = 0]; the [persistence] record is
    [None]. *)
Lemma time_threshold_priority_witness :
  Z_ge_float 2 SF_1_5 = true /\
  token_loop
    {| min_persisted := 5; min_visible := 1;
       include := default (fun _ => true) None;
       exclude := default (fun _ => false) None; verbose := true |}
    VNone [example_token "x" 0 0 2] stats_init [] =
  (inr {| tokens_added := 1;
          persistent_tokens := 1;
          non_self_persistent_tokens := 1;
          sum_log_persisted := add_float (Int 0) (log (Int 1));
          sum_log_non_self_persisted := add_float (Int 0) (log (Int 1));
          sum_log_seconds_visible := add_float (Int 0) (log (Int 3));
          censored := false;
          non_self_censored := false |}, ["."]).
Proof.
  split; [reflexivity|].
  assert (Hok : token_ok {| text := VStr "x"; persisted := 0;
                            non_self_persisted := 0; seconds_visible := 2 |})
    by (unfold token_ok; cbn; lia).
  destruct (time_threshold_priority SF_1_5 (Int 5) 5 None None true []
              VNone (example_token "x" 0 0 2) _ [] stats_init []
              eq_refl eq_refl eq_refl Hok eq_refl)
    as (cfg & Hcfg & Hloop).
  injection Hcfg as <-. exact (Hloop eq_refl).
Defined.

(** Every [seconds_visible] is [>=] minus infinity, but [int] does not
    accept it: the run ends at line 126 with [OverflowError] and no token is
    counted. *)
Lemma no_statistics_at_minus_infinity :
  Z_ge_float 100 (S754_infinity true) = true /\
  (forall cfg e,
     make_config (Int 5) (Float (S754_infinity true)) None None false [] <>
       (inr cfg, e)) /\
  persistence2stats [scenario_A] (Int 5) (Float (S754_infinity true))
    None None false [] =
    {| yielded := []; raised := Some OverflowError; stderr_out := [] |}.
Proof.
  split; [reflexivity|]. split; [|reflexivity].
  intros cfg e. discriminate.
Qed.

(** A token that was never seen again, in a window of zero seconds. *)
Lemma censoring_rule_witness :
  exists st' st'',
    token_body
      {| min_persisted := 5; min_visible := 1;
         include := default (fun _ => true) None;
         exclude := default (fun _ => false) None; verbose := false |}
      (VDict (example_persistence [example_token "x" 0 0 0] 0 10 10))
      stats_init (example_token "x" 0 0 0) [] = (inr st', []) /\
    censored st' = true /\ non_self_censored st' = true /\
    censored st'' = true /\ non_self_censored st'' = true.
Proof.
  assert (Hok : token_ok {| text := VStr "x"; persisted := 0;
                            non_self_persisted := 0; seconds_visible := 0 |})
    by (unfold token_ok; cbn; lia).
  destruct (censoring_rule (Int 5) (Float SF_1_5) None None false [] []
              {| min_persisted := 5; min_visible := 1;
                 include := default (fun _ => true) None;
                 exclude := default (fun _ => false) None; verbose := false |}
              (example_persistence [example_token "x" 0 0 0] 0 10 10)
              {| seconds_possible := 0; revisions_processed := 10;
                 non_self_processed := 10 |}
              (example_token "x" 0 0 0) _ [] [] stats_init []
              eq_refl eq_refl eq_refl Hok eq_refl eq_refl eq_refl
              (@List.Forall_nil _ _))
    as (_ & _ & st' & st'' & Hb & Hc & Hn & _ & Hc' & Hn').
  exists st', st''. split; [exact Hb|].
  split; [exact Hc|]. split; [exact Hn|].
  split; [exact (Hc' Hc) | exact (Hn' Hn)].
Defined.

(** With the threshold 1.5 the code compares against 1: a token with
    [seconds_visible = 0 < 1.5] in a window with
    [seconds_possible = 1 < 1.5] (and ten revisions processed) leaves both
    flags [False]. *)
Lemma censoring_compares_with_truncated_threshold :
  let d := example_doc [example_token "x" 0 0 0] 1 10 10 in
  let o := persistence2stats [d] (Int 5) (Float SF_1_5) None None false [] in
  Z_lt_float 0 SF_1_5 = true /\
  Z_lt_float 1 SF_1_5 = true /\
  exists m pd,
    yielded o = [VDict m] /\
    m !! "persistence" = Some (VDict pd) /\
    pd !! "tokens_added" = Some (VInt 1) /\
    pd !! "censored" = Some (VBool false) /\
    pd !! "non_self_censored" = Some (VBool false).
Proof.
  cbv zeta. split; [reflexivity|]. split; [reflexivity|].
  eexists _, _. split; [vm_compute; reflexivity|].
  split; [vm_compute; reflexivity|].
  repeat split; vm_compute; reflexivity.
Qed.

Lemma statistics_bounds_witness :
  exists st err',
    document_stats (example_config true) scenario_A [] = (inr st, err') /\
    tokens_added st = 1 /\
    0 <= persistent_tokens st <= tokens_added st /\
    0 <= non_self_persistent_tokens st <= tokens_added st /\
    nonneg (sum_log_persisted st) = true /\
    nonneg (sum_log_non_self_persisted st) = true /\
    nonneg (sum_log_seconds_visible st) = true.
Proof.
  apply (statistics_bounds (example_config true)
           (<["persistence" := VDict (example_persistence
                [example_token "x" 6 2 100] 40000 6 3)]> example_fields)
           (example_persistence [example_token "x" 6 2 100] 40000 6 3)
           [example_token "x" 6 2 100]
           [{| text := VStr "x"; persisted := 6; non_self_persisted := 2;
               seconds_visible := 100 |}]
           {| seconds_possible := 40000; revisions_processed := 6;
              non_self_processed := 3 |}
           []); try reflexivity.
  - repeat constructor; cbn; lia.
  - repeat constructor.
Defined.

(** Tokens that persisted through 1, 1 and 5 revisions, and the same tokens
    with the last one first. *)
Lemma token_order_witness :
  exists st st',
    document_stats (example_config false)
      (example_doc [example_token "a" 1 0 0; example_token "b" 1 0 0;
                    example_token "c" 5 0 0] 40000 6 3) [] = (inr st, []) /\
    document_stats (example_config false)
      (VDict (<["persistence" := VDict (<["tokens" :=
          VList [example_token "c" 5 0 0; example_token "a" 1 0 0;
                 example_token "b" 1 0 0]]>
          (example_persistence
             [example_token "a" 1 0 0; example_token "b" 1 0 0;
              example_token "c" 5 0 0] 40000 6 3))]>
        (<["persistence" := VDict (example_persistence
             [example_token "a" 1 0 0; example_token "b" 1 0 0;
              example_token "c" 5 0 0] 40000 6 3)]> example_fields)))
      [] = (inr st', []) /\
    tokens_added st = tokens_added st' /\
    persistent_tokens st = persistent_tokens st' /\
    non_self_persistent_tokens st = non_self_persistent_tokens st' /\
    censored st = censored st' /\
    non_self_censored st = non_self_censored st'.
Proof.
  destruct (token_order (example_config false)
              (<["persistence" := VDict (example_persistence
                   [example_token "a" 1 0 0; example_token "b" 1 0 0;
                    example_token "c" 5 0 0] 40000 6 3)]> example_fields)
              (example_persistence
                 [example_token "a" 1 0 0; example_token "b" 1 0 0;
                  example_token "c" 5 0 0] 40000 6 3)
              [example_token "a" 1 0 0; example_token "b" 1 0 0;
               example_token "c" 5 0 0]
              [example_token "c" 5 0 0; example_token "a" 1 0 0;
               example_token "b" 1 0 0]
              [{| text := VStr "a"; persisted := 1; non_self_persisted := 0;
                  seconds_visible := 0 |};
               {| text := VStr "b"; persisted := 1; non_self_persisted := 0;
                  seconds_visible := 0 |};
               {| text := VStr "c"; persisted := 5; non_self_persisted := 0;
                  seconds_visible := 0 |}]
              {| seconds_possible := 40000; revisions_processed := 6;
                 non_self_processed := 3 |}
              [])
    as (tks' & st & st' & e & e' & _ & Hst & Hst' & H1 & H2 & H3 & H4 & H5 & _);
    try reflexivity;
    [repeat constructor; cbn; lia
    | exact (perm_trans (perm_skip _ (perm_swap _ _ _)) (perm_swap _ _ _)) |].
  exists st, st'.
  assert (He : e = []) by (vm_compute in Hst; now injection Hst).
  assert (He' : e' = []) by (vm_compute in Hst'; now injection Hst').
  subst e e'. now repeat split.
Defined.

(** The sum of [log(2)], [log(2)] and [log(6)] depends on the order of the
    additions: 3.1780538303479453 against 3.1780538303479458. *)
Lemma sums_depend_on_token_order :
  let ts := [example_token "a" 1 0 0; example_token "b" 1 0 0;
             example_token "c" 5 0 0] in
  let ts' := [example_token "c" 5 0 0; example_token "a" 1 0 0;
              example_token "b" 1 0 0] in
  Permutation ts ts' /\
  exists st st',
    document_stats (example_config false) (example_doc ts 40000 6 3) [] =
      (inr st, []) /\
    document_stats (example_config false) (example_doc ts' 40000 6 3) [] =
      (inr st', []) /\
    sum_log_persisted st =
      Float (S754_finite false 7156341023059192 (-51)) /\
    sum_log_persisted st' =
      Float (S754_finite false 7156341023059193 (-51)) /\
    sum_log_persisted st <> sum_log_persisted st'.
Proof.
  cbv zeta. split.
  { exact (perm_trans (perm_skip _ (perm_swap _ _ _)) (perm_swap _ _ _)). }
  eexists _, _. split; [vm_compute; reflexivity|].
  split; [vm_compute; reflexivity|].
  split; [reflexivity|]. split; [reflexivity|]. discriminate.
Qed.

(** ** Streams of documents *)

Section Streams.

Context `{MathLib}.

Lemma generate_app f docs1 docs2 err :
  raised (generate f docs1 err) = None ->
  generate f (docs1 ++ docs2) err =
    let o1 := generate f docs1 err in
    let o2 := generate f docs2 (stderr_out o1) in
    {| yielded := yielded o1 ++ yielded o2;
       raised := raised o2;
       stderr_out := stderr_out o2 |}.
Proof.
  revert err. induction docs1 as [|d docs1 IH]; intros err; cbn.
  - intros _. now destruct (generate f docs2 err).
  - destruct (f d err) as [[e|d'] err1]; [discriminate|]. cbn.
    intros Hr. now rewrite (IH _ Hr).
Qed.

Lemma generate_stops f docs1 d docs2 err e err' :
  raised (generate f docs1 err) = None ->
  f d (stderr_out (generate f docs1 err)) = (inl e, err') ->
  generate f (docs1 ++ d :: docs2) err =
    {| yielded := yielded (generate f docs1 err);
       raised := Some e;
       stderr_out := err' |}.
Proof.
  intros Hr Hd. rewrite (generate_app _ _ _ _ Hr). cbn. rewrite Hd. cbn.
  now rewrite app_nil_r.
Qed.

Lemma generate_prefix (R : value -> value -> Prop) f docs err :
  (forall d d' e e', f d e = (inr d', e') -> R d d') ->
  Forall2 R (take (length (yielded (generate f docs err))) docs)
    (yielded (generate f docs err)) /\
  (raised (generate f docs err) = None ->
   length (yielded (generate f docs err)) = length docs).
Proof.
  intros HR. revert err. induction docs as [|d docs IH]; intros err; cbn.
  - split; [constructor | reflexivity].
  - destruct (f d err) as [[e|d'] err1] eqn:Hd; cbn.
    + split; [constructor | discriminate].
    + destruct (IH err1) as [IH1 IH2]. split.
      * constructor; [exact (HR _ _ _ _ Hd) | exact IH1].
      * intros Hr. now rewrite (IH2 Hr).
Qed.

Lemma missing_key_raises cfg m k err :
  missing_key m = Some k ->
  persistence2stats_doc cfg (VDict m) err = (inl (KeyError k), err).
Proof.
  unfold missing_key, persistence2stats_doc, document_stats. intros Hk.
  apply bind_inl.
  destruct (m !! "persistence") as [pdv|] eqn:Hm.
  - rewrite (bind_inr _ _ _ _ _ (getitem_Some _ _ _ _ Hm)).
    destruct pdv as [| | | | |pd]; try discriminate.
    destruct (pd !! "tokens") eqn:Hpd; [discriminate|].
    injection Hk as <-. now apply bind_inl, getitem_None.
  - injection Hk as <-. now apply bind_inl, getitem_None.
Qed.

(** X1: in the loop of line 130, a document without [persistence], or
    without [tokens] in it, ends the run with the [KeyError] of that key: the
    documents before it are yielded, nothing is written for it, and the
    documents after it are not read.  The documents are those the loop
    receives, that is, as [normalize] hands them over. *)
Theorem missing_key_ends_the_run (cfg : config) (docs1 docs2 : list value)
    (m : gmap string value) (k : string) (err : stderr) :
  let o1 := generate (persistence2stats_doc cfg) docs1 err in
  raised o1 = None ->
  missing_key m = Some k ->
  generate (persistence2stats_doc cfg) (docs1 ++ VDict m :: docs2) err =
    {| yielded := yielded o1;
       raised := Some (KeyError k);
       stderr_out := stderr_out o1 |}.
Proof.
  cbv zeta. intros Hr Hk. apply generate_stops; [exact Hr|].
  now apply missing_key_raises.
Qed.

Lemma persistence2stats_doc_frame cfg d d' err err' :
  persistence2stats_doc cfg d err = (inr d', err') ->
  exists m pd pd',
    d = VDict m /\ m !! "persistence" = Some (VDict pd) /\
    d' = VDict (<["persistence" := VDict pd']> m) /\
    (forall k, k ∉ stats_keys -> pd' !! k = pd !! k) /\
    Forall (fun k => is_Some (pd' !! k)) stats_keys.
Proof.
  intros (m & pd & st & -> & Hm & _ & ->)%persistence2stats_doc_inr.
  exists m, pd, (dict_update pd (stats_items st)).
  split; [reflexivity|]. split; [exact Hm|]. split; [reflexivity|]. split.
  - intros k Hk. now apply dict_update_other.
  - destruct (dict_update_lookup pd st)
      as (H1 & H2 & H3 & H4 & H5 & H6 & H7 & H8).
    cbv zeta in *. unfold stats_keys.
    repeat constructor; eauto.
Qed.

(** X2: one turn of the loop, lines 131-187, merges the statistics into
    [persistence] and does not put them in its place: compared with the
    document the loop received, the document it yields has every field other
    than [persistence] as it was, every entry of [persistence] other than the
    eight statistics as it was (so [tokens] and the window are still there),
    and all eight statistics. *)
Theorem statistics_are_merged (cfg : config) (d d' : value)
    (err err' : stderr) :
  persistence2stats_doc cfg d err = (inr d', err') ->
  exists m m' pd pd',
    d = VDict m /\ d' = VDict m' /\
    m !! "persistence" = Some (VDict pd) /\
    m' !! "persistence" = Some (VDict pd') /\
    (forall k, k <> "persistence" -> m' !! k = m !! k) /\
    (forall k, k ∉ stats_keys -> pd' !! k = pd !! k) /\
    is_Some (pd' !! "tokens") /\
    Forall (fun k => is_Some (pd' !! k)) stats_keys.
Proof.
  intros Hd.
  destruct (persistence2stats_doc_frame _ _ _ _ _ Hd)
    as (m & pd & pd' & -> & Hm & -> & Hother & Hkeys).
  exists m, (<["persistence" := VDict pd']> m), pd, pd'.
  split; [reflexivity|]. split; [reflexivity|]. split; [exact Hm|].
  split; [apply lookup_insert_eq|].
  split; [intros k Hk; now apply lookup_insert_ne|].
  split; [exact Hother|]. split; [|exact Hkeys].
  rewrite Hother by (unfold stats_keys; not_stats_key).
  apply persistence2stats_doc_inr in Hd as (m0 & pd0 & st & [= <-] & Hm0 & Hst & _).
  rewrite Hm in Hm0. injection Hm0 as <-.
  unfold document_stats in Hst.
  rewrite (bind_inr _ _ _ _ _ (getitem_Some _ _ _ _ Hm)) in Hst.
  unfold bind at 1, getitem in Hst.
  destruct (pd !! "tokens"); [eauto | discriminate].
Qed.

(** X3: the loop of line 130 yields one document for each document it
    receives, in order: the [i]-th document yielded is the [i]-th document
    the loop received, changed in [persistence] at most; when the loop ends
    without an exception there are as many as it received. *)
Theorem yielded_in_order (cfg : config) (rev_docs : list value)
    (err : stderr) :
  let o := generate (persistence2stats_doc cfg) rev_docs err in
  Forall2 same_other_fields (take (length (yielded o)) rev_docs) (yielded o) /\
  (raised o = None -> length (yielded o) = length rev_docs).
Proof.
  cbv zeta. apply generate_prefix. intros d d' e e' Hd.
  destruct (persistence2stats_doc_frame _ _ _ _ _ Hd)
    as (m & pd & pd' & -> & Hm & -> & _).
  exists m, (<["persistence" := VDict pd']> m).
  split; [reflexivity|]. split; [reflexivity|].
  intros k Hk. now apply lookup_insert_ne.
Qed.

Lemma dict_update_over pd st1 st2 :
  dict_update (dict_update pd (stats_items st1)) (stats_items st2) =
    dict_update pd (stats_items st2).
Proof.
  rewrite !dict_update_stats. apply map_eq. intros k.
  rewrite !lookup_insert. repeat case_decide; reflexivity.
Qed.

(** X4: the last run wins.  Aggregating, with any configuration, a document
    that was aggregated before gives what aggregating the original document
    gives: the statistics of the earlier run are not read and are all
    overwritten. *)
Theorem last_run_wins (cfg1 cfg2 : config) (d d1 : value)
    (e e1 e2 : stderr) :
  persistence2stats_doc cfg1 d e = (inr d1, e1) ->
  persistence2stats_doc cfg2 d1 e2 = persistence2stats_doc cfg2 d e2.
Proof.
  intros (m & pd & st & -> & Hm & _ & ->)%persistence2stats_doc_inr.
  unfold persistence2stats_doc at 1 2. unfold bind.
  rewrite (document_stats_updated cfg2 m pd st e2 Hm).
  destruct (document_stats cfg2 (VDict m) e2) as [[x|st2] e3]; [reflexivity|].
  unfold update_persistence. rewrite lookup_insert_eq, Hm.
  now rewrite dict_update_over, insert_insert_eq.
Qed.

Lemma drop_tokens_doc_twice d d' e e' :
  drop_tokens_doc d e = (inr d', e') -> drop_tokens_doc d' e = (inr d', e').
Proof.
  intros (m & pd & -> & Hm & -> & ->)%drop_tokens_doc_inr.
  unfold drop_tokens_doc. rewrite lookup_insert_eq.
  now rewrite delete_delete_eq, insert_insert_eq.
Qed.

(** X5: [drop_tokens] is idempotent: on the documents it yielded it yields
    them again, unchanged. *)
Theorem drop_tokens_twice (rev_docs : list value) (err : stderr) :
  raised (drop_tokens rev_docs err) = None ->
  drop_tokens (yielded (drop_tokens rev_docs err)) err =
    drop_tokens rev_docs err.
Proof.
  unfold drop_tokens. apply generate_twice.
  intros d d' e e'. apply drop_tokens_doc_twice.
Qed.

Lemma drop_tokens_doc_ok m pd e :
  m !! "persistence" = Some (VDict pd) ->
  drop_tokens_doc (VDict m) e =
    (inr (VDict (<["persistence" := VDict (delete "tokens" pd)]> m)), e).
Proof. intros Hm. unfold drop_tokens_doc. now rewrite Hm. Qed.

Lemma pipeline cfg docs err e0 :
  let o := generate (persistence2stats_doc cfg) docs err in
  let o' := generate (fun d => d' <- persistence2stats_doc cfg d ;;
                               drop_tokens_doc d') docs err in
  drop_tokens (yielded o) e0 =
    {| yielded := yielded o'; raised := None; stderr_out := e0 |} /\
  raised o' = raised o /\ stderr_out o' = stderr_out o /\
  Forall pruned (yielded o').
Proof.
  cbv zeta. unfold drop_tokens. revert err.
  induction docs as [|d docs IH]; intros err; cbn [generate].
  { cbn. repeat split; try reflexivity; constructor. }
  destruct (persistence2stats_doc cfg d err) as [[e|d'] err1] eqn:Hd.
  { rewrite !(bind_inl _ _ _ _ _ Hd). cbn.
    repeat split; try reflexivity; constructor. }
  rewrite !(bind_inr _ _ _ _ _ Hd).
  destruct (persistence2stats_doc_frame _ _ _ _ _ Hd)
    as (m & pd & pd' & -> & Hm & -> & Hother & Hkeys).
  cbn [yielded raised stderr_out generate].
  rewrite !(drop_tokens_doc_ok _ pd') by apply lookup_insert_eq.
  cbn [yielded raised stderr_out].
  destruct (IH err1) as (IH1 & IH2 & IH3 & IH4). rewrite IH1. cbn.
  repeat split; try assumption.
  constructor; [|exact IH4].
  eexists _, _. split; [reflexivity|].
  split; [apply lookup_insert_eq|]. split; [apply lookup_delete_eq|].
  unfold stats_keys in *.
  repeat match goal with
         | Hk : Forall _ (_ :: _) |- _ =>
             apply Forall_cons in Hk as [? Hk]
         end.
  repeat constructor; now rewrite lookup_delete_ne by congruence.
Qed.

(** X6: without [keep_tokens], [_persistence2stats] yields what
    [drop_tokens] yields on the documents of [persistence2stats], ends as
    [persistence2stats] ends and writes what it writes; [drop_tokens] raises
    nothing on these documents, and each document yielded has the eight
    statistics and no [tokens]. *)
Theorem pruned_pipeline (rev_docs : list value) (mp mv : number)
    (inc exc : option (value -> bool)) (vb : bool) (err e0 : stderr) :
  let o := persistence2stats rev_docs mp mv inc exc vb err in
  let o' := _persistence2stats rev_docs false mp mv inc exc vb err in
  drop_tokens (yielded o) e0 =
    {| yielded := yielded o'; raised := None; stderr_out := e0 |} /\
  raised o' = raised o /\ stderr_out o' = stderr_out o /\
  Forall pruned (yielded o').
Proof.
  cbv zeta. unfold _persistence2stats, persistence2stats.
  destruct (make_config mp mv inc exc vb err) as [[e|cfg] err1].
  - cbn. repeat split; try reflexivity; constructor.
  - apply pipeline.
Qed.

End Streams.

(** ** Thresholds and malformed numbers *)

Section Numbers.

Context `{MathLib}.

Lemma compare_not_Lt a b : b <= a -> Some (a ?= b) <> Some Lt.
Proof. destruct (Z.compare_spec a b); (lia || discriminate). Qed.

Lemma compare_not_Gt a b : a <= b -> Some (a ?= b) <> Some Gt.
Proof. destruct (Z.compare_spec a b); (lia || discriminate). Qed.

Lemma compare_is_Lt a b : a < b -> Some (a ?= b) = Some Lt.
Proof. destruct (Z.compare_spec a b); (lia || reflexivity). Qed.

Lemma compare_is_Gt a b : b < a -> Some (a ?= b) = Some Gt.
Proof. destruct (Z.compare_spec a b); (lia || reflexivity). Qed.

Lemma py_int_finite f err :
  finite f = true ->
  exists z, py_int (Float f) err = (inr z, err) /\ towards_zero f z.
Proof.
  destruct f as [s|s| |s m e]; try discriminate; intros _.
  - exists 0. split; [reflexivity|]. left.
    split; [lia|]. split; [discriminate | reflexivity].
  - exists (cond_Zopp s (Z.shiftl (Z.pos m) e)). split; [reflexivity|].
    unfold towards_zero, SFcompare_Z. destruct e as [|p|p].
    + rewrite Z.shiftl_0_r, Z.pow_0_r, Z.mul_1_r.
      destruct s; cbn [cond_Zopp]; [right | left].
      * split; [lia|].
        split; [apply compare_not_Gt | apply compare_is_Gt]; lia.
      * split; [lia|].
        split; [apply compare_not_Lt | apply compare_is_Lt]; lia.
    + rewrite Z.shiftl_mul_pow2 by lia.
      assert (Hp : 0 < 2 ^ Z.pos p) by (apply Z.pow_pos_nonneg; lia).
      assert (Hq : 0 < Z.pos m * 2 ^ Z.pos p) by (apply Z.mul_pos_pos; lia).
      destruct s; cbn [cond_Zopp]; [right | left].
      * split; [lia|].
        split; [apply compare_not_Gt | apply compare_is_Gt]; lia.
      * split; [lia|].
        split; [apply compare_not_Lt | apply compare_is_Lt]; lia.
    + change (Z.shiftl (Z.pos m) (Z.neg p))
        with (Z.shiftr (Z.pos m) (Z.pos p)).
      rewrite Z.shiftr_div_pow2 by lia.
      assert (Hp : 0 < 2 ^ Z.pos p) by (apply Z.pow_pos_nonneg; lia).
      pose proof (Z.mul_div_le (Z.pos m) _ Hp) as Hle.
      pose proof (Z.mul_succ_div_gt (Z.pos m) _ Hp) as Hgt.
      rewrite (Z.mul_comm (2 ^ Z.pos p)) in Hle, Hgt.
      rewrite <- Z.add_1_r in Hgt.
      assert (Hq : 0 <= Z.pos m / 2 ^ Z.pos p) by (apply Z.div_pos; lia).
      generalize dependent (Z.pos m / 2 ^ Z.pos p). intros q Hle Hgt Hq.
      destruct s; cbn [cond_Zopp]; [right | left].
      * split; [lia|].
        split; [apply compare_not_Gt | apply compare_is_Gt]; lia.
      * split; [lia|].
        split; [apply compare_not_Lt | apply compare_is_Lt]; lia.
Qed.

(** X7: a finite float threshold is rounded towards zero, [min_persisted] as
    well as [min_visible], whatever its sign: the run is the run with the two
    rounded integers. *)
Theorem thresholds_are_rounded_towards_zero (rev_docs : list value)
    (fp fv : float) (inc exc : option (value -> bool)) (vb : bool)
    (err : stderr) :
  finite fp = true -> finite fv = true ->
  exists zp zv,
    towards_zero fp zp /\ towards_zero fv zv /\
    persistence2stats rev_docs (Float fp) (Float fv) inc exc vb err =
      persistence2stats rev_docs (Int zp) (Int zv) inc exc vb err.
Proof.
  intros Hp Hv.
  destruct (py_int_finite fp err Hp) as (zp & Hzp & Htp).
  destruct (py_int_finite fv err Hv) as (zv & Hzv & Htv).
  exists zp, zv. split; [exact Htp|]. split; [exact Htv|].
  unfold persistence2stats, make_config.
  rewrite (bind_inr _ _ _ _ _ Hzp), (bind_inr _ _ _ _ _ Hzv).
  reflexivity.
Qed.

Lemma py_int_not_finite f err :
  finite f = false -> py_int (Float f) err = (inl (int_error f), err).
Proof. now destruct f. Qed.

(** X8: an infinite or NaN threshold ends the run before a document is
    read: [OverflowError] for an infinity, [ValueError] for a NaN, nothing
    yielded and nothing written.  [min_persisted] is converted first. *)
Theorem threshold_not_finite (rev_docs : list value) (f : float)
    (n : number) (z : Z) (inc exc : option (value -> bool)) (vb : bool)
    (err : stderr) :
  finite f = false ->
  let failed := {| yielded := []; raised := Some (int_error f);
                   stderr_out := err |} in
  persistence2stats rev_docs (Float f) n inc exc vb err = failed /\
  persistence2stats rev_docs (Int z) (Float f) inc exc vb err = failed.
Proof.
  intros Hf. cbv zeta. unfold persistence2stats, make_config. split.
  - now rewrite (bind_inl _ _ _ _ _ (py_int_not_finite f err Hf)).
  - cbn [py_int]. unfold bind at 1, ret at 1.
    now rewrite (bind_inl _ _ _ _ _ (py_int_not_finite f err Hf)).
Qed.

Lemma log_field_negative d k z err :
  d !! k = Some (VInt z) -> z < 0 ->
  log_field (VDict d) k err = (inl ValueError, err).
Proof.
  intros Hk Hz. unfold log_field.
  rewrite (bind_inr _ _ _ _ _ (getitem_Some _ _ _ _ Hk)).
  cbn. destruct (Z.ltb_spec 0 (z + 1)); [lia | reflexivity].
Qed.

(** X9: a retained token whose [persisted], [non_self_persisted] or
    [seconds_visible] is a negative [int] ends the run with [ValueError]
    ([math.log] of a number that is not positive), after its dot was
    written. *)
Theorem negative_number_raises (cfg : config) (pd t : value) (tk : token)
    (rest : list value) (st : stats_doc) (err : stderr) :
  read_token t = Some tk -> retained cfg tk = true -> ~ token_ok tk ->
  token_loop cfg pd (t :: rest) st err = (inl ValueError, err ++ dot cfg).
Proof.
  intros Ht Hkeep Hbad. cbn [token_loop].
  rewrite (bind_inr _ _ _ _ _ (passes_filter_token _ _ _ _ Ht)), Hkeep.
  apply bind_inl.
  destruct (read_token_Some _ _ Ht) as (d & -> & _ & Hp & Hq & Hs).
  unfold token_body. rewrite (bind_inr _ _ _ _ _ (write_dot _ _)).
  destruct (Z.lt_ge_cases (persisted tk) 0) as [Hp0|Hp0].
  { now rewrite (bind_inl _ _ _ _ _ (log_field_negative _ _ _ _ Hp Hp0)). }
  rewrite (bind_inr _ _ _ _ _ (log_field_int _ _ _ _ Hp Hp0)).
  destruct (Z.lt_ge_cases (non_self_persisted tk) 0) as [Hq0|Hq0].
  { now rewrite (bind_inl _ _ _ _ _ (log_field_negative _ _ _ _ Hq Hq0)). }
  rewrite (bind_inr _ _ _ _ _ (log_field_int _ _ _ _ Hq Hq0)).
  destruct (Z.lt_ge_cases (seconds_visible tk) 0) as [Hs0|Hs0].
  { now rewrite (bind_inl _ _ _ _ _ (log_field_negative _ _ _ _ Hs Hs0)). }
  exfalso. apply Hbad. unfold token_ok. lia.
Qed.

Lemma token_body_no_window cfg pd st t tk err :
  read_token t = Some tk -> token_ok tk -> by_time cfg tk = false ->
  pd !! "seconds_possible" = None ->
  token_body cfg (VDict pd) st t err =
    (inl (KeyError "seconds_possible"), err ++ dot cfg).
Proof.
  intros (d & -> & _ & Hp & Hq & Hs)%read_token_Some (Hp0 & Hq0 & Hs0) Hbt Hw.
  unfold token_body.
  rewrite (bind_inr _ _ _ _ _ (write_dot _ _)).
  rewrite (bind_inr _ _ _ _ _ (log_field_int _ _ _ _ Hp Hp0)).
  rewrite (bind_inr _ _ _ _ _ (log_field_int _ _ _ _ Hq Hq0)).
  rewrite (bind_inr _ _ _ _ _ (log_field_int _ _ _ _ Hs Hs0)).
  rewrite (bind_inr _ _ _ _ _ (field_ge_int _ _ _ _ _ Hs)).
  unfold by_time in Hbt. rewrite Hbt.
  rewrite (bind_inr _ _ _ _ _ (field_ge_int _ _ _ _ _ Hp)).
  rewrite (bind_inr _ _ _ _ _ (field_ge_int _ _ _ _ _ Hq)).
  apply bind_inl. unfold field_lt. now apply bind_inl, getitem_None.
Qed.

(** X10: the window is read on demand.  On a [persistence] record without
    [seconds_possible], the loop runs to its end when no retained token fails
    the time threshold, with both flags as they were and every retained
    token counted as persistent; it raises [KeyError('seconds_possible')] as
    soon as one does. *)
Theorem window_is_read_on_demand (cfg : config) (pd : gmap string value)
    (ts : list value) (tks : list token) (st : stats_doc) (err : stderr) :
  read_tokens ts = Some tks -> Forall token_ok tks ->
  pd !! "seconds_possible" = None ->
  (Forall (fun tk => unobserved cfg tk = false) tks ->
   exists st',
     token_loop cfg (VDict pd) ts st err = (inr st', err ++ dots cfg tks) /\
     censored st' = censored st /\
     non_self_censored st' = non_self_censored st /\
     tokens_added st' = tokens_added st + count (retained cfg) tks /\
     persistent_tokens st' = persistent_tokens st + count (retained cfg) tks /\
     non_self_persistent_tokens st' =
       non_self_persistent_tokens st + count (retained cfg) tks) /\
  (Exists (fun tk => unobserved cfg tk = true) tks ->
   exists err',
     token_loop cfg (VDict pd) ts st err =
       (inl (KeyError "seconds_possible"), err')).
Proof.
  intros Hts Hok Hw. revert tks st err Hts Hok.
  induction ts as [|t ts IH]; intros tks st err Hts Hok.
  { injection Hts as <-. split.
    - intros _. exists st. cbn. unfold ret, dots, count.
      destruct (verbose cfg); cbn; rewrite ?app_nil_r;
        repeat split; lia.
    - intros Hex. inversion Hex. }
  apply read_tokens_cons in Hts as (tk & tks0 & -> & Ht & Hts).
  apply Forall_cons in Hok as [Hok Hoks].
  cbn [token_loop].
  rewrite (bind_inr _ _ _ _ _ (passes_filter_token _ _ _ _ Ht)).
  assert (Hcount : forall p, count p (tk :: tks0) =
                     (if p tk then 1 else 0) + count p tks0).
  { intros p. unfold count. rewrite filter_cons.
    destruct (decide (p tk = true)) as [->|Hn]; [cbn; lia|].
    apply not_true_is_false in Hn. now rewrite Hn. }
  rewrite dots_cons, Hcount.
  destruct (retained cfg tk) eqn:Hkeep.
  - destruct (by_time cfg tk) eqn:Hbt.
    + rewrite (bind_inr _ _ _ _ _
                 (token_body_by_time _ (VDict pd) st _ _ _ Ht Hok Hbt)).
      match goal with
      | |- context [token_loop cfg (VDict pd) ts ?s ?e] =>
          destruct (IH tks0 s e Hts Hoks) as [IHa IHb]
      end.
      split.
      * intros [_ Hall]%Forall_cons.
        destruct (IHa Hall) as (st' & Hloop & H1 & H2 & H3 & H4 & H5).
        exists st'. rewrite Hloop, <- app_assoc. cbn in *.
        repeat split; try assumption; lia.
      * intros [Hhead|Htail]%Exists_cons; [|exact (IHb Htail)].
        unfold unobserved in Hhead. rewrite Hkeep, Hbt in Hhead.
        discriminate.
    + split.
      * intros [Hhead _]%Forall_cons.
        unfold unobserved in Hhead. rewrite Hkeep, Hbt in Hhead.
        discriminate.
      * intros _. eexists.
        apply bind_inl. now apply (token_body_no_window cfg pd st t tk).
  - destruct (IH tks0 st err Hts Hoks) as [IHa IHb]. split.
    + intros [_ Hall]%Forall_cons.
      destruct (IHa Hall) as (st' & Hloop & H1 & H2 & H3 & H4 & H5).
      exists st'. rewrite Hloop. cbn. repeat split; try assumption; lia.
    + intros [Hhead|Htail]%Exists_cons; [|exact (IHb Htail)].
      unfold unobserved in Hhead. rewrite Hkeep in Hhead. discriminate.
Qed.

End Numbers.

(** ** The statistics of a document *)

Section Statistics.

Context `{MathLib}.

Lemma count_cons p tk tks :
  count p (tk :: tks) = (if p tk then 1 else 0) + count p tks.
Proof.
  unfold count. rewrite filter_cons.
  destruct (decide (p tk = true)) as [->|Hn]; [cbn; lia|].
  apply not_true_is_false in Hn. now rewrite Hn.
Qed.

Lemma count_app p tks1 tks2 :
  count p (tks1 ++ tks2) = count p tks1 + count p tks2.
Proof. unfold count. rewrite filter_app, length_app. lia. Qed.

Lemma count_le p q tks :
  (forall tk, p tk = true -> q tk = true) -> count p tks <= count q tks.
Proof.
  intros Hpq. induction tks as [|tk tks IH]; [reflexivity|].
  rewrite !count_cons. specialize (Hpq tk).
  destruct (p tk), (q tk); try lia; discriminate (Hpq eq_refl).
Qed.

Lemma count_ext p q tks :
  (forall tk, p tk = q tk) -> count p tks = count q tks.
Proof.
  intros Hpq. induction tks as [|tk tks IH]; [reflexivity|].
  now rewrite !count_cons, Hpq, IH.
Qed.

Lemma aggregate_closed_form cfg w tks st :
  let thin := (seconds_possible w <? min_visible cfg) in
  let st' := aggregate cfg w tks st in
  tokens_added st' = tokens_added st + count (retained cfg) tks /\
  persistent_tokens st' =
    persistent_tokens st + count (persistent cfg) tks /\
  non_self_persistent_tokens st' =
    non_self_persistent_tokens st + count (non_self_persistent cfg) tks /\
  censored st' =
    censored st ||
    (existsb (unobserved cfg) tks &&
     (thin || (revisions_processed w <? min_persisted cfg))) /\
  non_self_censored st' =
    non_self_censored st ||
    (existsb (unobserved cfg) tks &&
     (thin || (non_self_processed w <? min_persisted cfg))).
Proof.
  cbv zeta. unfold aggregate. revert st.
  induction tks as [|tk tks IH]; intros st.
  { cbn. unfold count. cbn. rewrite !orb_false_r. repeat split; lia. }
  cbn [foldl existsb]. rewrite !count_cons.
  destruct (IH (tally cfg w st tk)) as (-> & -> & -> & -> & ->). clear IH.
  generalize (existsb (unobserved cfg) tks) (count (retained cfg) tks)
    (count (persistent cfg) tks) (count (non_self_persistent cfg) tks).
  intros ex c1 c2 c3.
  unfold tally, persistent, non_self_persistent, unobserved.
  destruct (retained cfg tk); cbn [andb orb]; [|repeat split; lia].
  unfold classify; cbn.
  destruct (by_time cfg tk); cbn [negb andb orb];
    repeat split; try lia;
    try (destruct (min_persisted cfg <=? persisted tk); cbn; lia);
    try (destruct (min_persisted cfg <=? non_self_persisted tk); cbn; lia);
    destruct (censored st), (non_self_censored st), ex,
      (seconds_possible w <? min_visible cfg),
      (revisions_processed w <? min_persisted cfg),
      (non_self_processed w <? min_persisted cfg); reflexivity.
Qed.

(** X11: the statistics of a well-formed document, in closed form:
    [tokens_added] counts the retained tokens; [persistent_tokens] those of
    them with [seconds_visible >= min_visible] or
    [persisted >= min_persisted], [non_self_persistent_tokens] likewise with
    [non_self_persisted]; [censored] says that some retained token has
    [seconds_visible < min_visible] while [seconds_possible < min_visible]
    or [revisions_processed < min_persisted], [non_self_censored] likewise
    with [non_self_processed] (thresholds after [int]). *)
Theorem statistics_closed_form (cfg : config) (m pd : gmap string value)
    (ts : list value) (tks : list token) (w : window) (err : stderr) :
  m !! "persistence" = Some (VDict pd) ->
  pd !! "tokens" = Some (VList ts) ->
  read_tokens ts = Some tks -> Forall token_ok tks ->
  read_window pd = Some w ->
  exists st err',
    document_stats cfg (VDict m) err = (inr st, err') /\
    tokens_added st = count (retained cfg) tks /\
    persistent_tokens st = count (persistent cfg) tks /\
    non_self_persistent_tokens st = count (non_self_persistent cfg) tks /\
    censored st =
      existsb (unobserved cfg) tks &&
      ((seconds_possible w <? min_visible cfg) ||
       (revisions_processed w <? min_persisted cfg)) /\
    non_self_censored st =
      existsb (unobserved cfg) tks &&
      ((seconds_possible w <? min_visible cfg) ||
       (non_self_processed w <? min_persisted cfg)).
Proof.
  intros Hm Hpd Hts Hok Hw.
  eexists _, _. split; [now apply (document_stats_typed cfg m pd ts tks w)|].
  destruct (aggregate_closed_form cfg w tks stats_init)
    as (H1 & H2 & H3 & H4 & H5).
  cbv zeta in *. cbn in *. now rewrite H1, H2, H3, H4, H5.
Qed.

Lemma read_tokens_app ts1 ts2 tks1 tks2 :
  read_tokens ts1 = Some tks1 -> read_tokens ts2 = Some tks2 ->
  read_tokens (ts1 ++ ts2) = Some (tks1 ++ tks2).
Proof.
  revert tks1. induction ts1 as [|t ts1 IH]; intros tks1.
  - now intros [= <-].
  - intros (tk & tks & -> & Ht & Hts)%read_tokens_cons H2. cbn.
    now rewrite Ht, (IH _ Hts H2).
Qed.

Lemma log_terms_app cfg field tks1 tks2 :
  log_terms cfg field (tks1 ++ tks2) =
    log_terms cfg field tks1 ++ log_terms cfg field tks2.
Proof. unfold log_terms. now rewrite filter_app, fmap_app. Qed.

(** X12: two token lists in a row.  On the concatenation of two well-formed
    token lists the counters are the sums of the counters of the two lists
    and each flag is the disjunction of the two flags; a log-sum is not the
    sum of the two log-sums but the sum of the first list with the terms of
    the second added to it one after the other. *)
Theorem concatenated_tokens (cfg : config) (pd : gmap string value)
    (w : window) (ts1 ts2 : list value) (tks1 tks2 : list token)
    (err : stderr) :
  read_window pd = Some w ->
  read_tokens ts1 = Some tks1 -> Forall token_ok tks1 ->
  read_tokens ts2 = Some tks2 -> Forall token_ok tks2 ->
  exists s1 s2 s e1 e2 e,
    token_loop cfg (VDict pd) ts1 stats_init err = (inr s1, e1) /\
    token_loop cfg (VDict pd) ts2 stats_init err = (inr s2, e2) /\
    token_loop cfg (VDict pd) (ts1 ++ ts2) stats_init err = (inr s, e) /\
    tokens_added s = tokens_added s1 + tokens_added s2 /\
    persistent_tokens s = persistent_tokens s1 + persistent_tokens s2 /\
    non_self_persistent_tokens s =
      non_self_persistent_tokens s1 + non_self_persistent_tokens s2 /\
    censored s = censored s1 || censored s2 /\
    non_self_censored s = non_self_censored s1 || non_self_censored s2 /\
    sum_log_persisted s =
      accumulate (sum_log_persisted s1) (log_terms cfg persisted tks2) /\
    sum_log_non_self_persisted s =
      accumulate (sum_log_non_self_persisted s1)
        (log_terms cfg non_self_persisted tks2) /\
    sum_log_seconds_visible s =
      accumulate (sum_log_seconds_visible s1)
        (log_terms cfg seconds_visible tks2).
Proof.
  intros Hw H1 Hok1 H2 Hok2.
  pose proof (read_tokens_app _ _ _ _ H1 H2) as H12.
  assert (Hok12 : Forall token_ok (tks1 ++ tks2)) by now apply Forall_app.
  eexists _, _, _, _, _, _.
  split; [exact (token_loop_typed cfg pd w _ _ _ err H1 Hok1 Hw)|].
  split; [exact (token_loop_typed cfg pd w _ _ _ err H2 Hok2 Hw)|].
  split; [exact (token_loop_typed cfg pd w _ _ _ err H12 Hok12 Hw)|].
  destruct (aggregate_closed_form cfg w tks1 stats_init)
    as (A1 & A2 & A3 & A4 & A5).
  destruct (aggregate_closed_form cfg w tks2 stats_init)
    as (B1 & B2 & B3 & B4 & B5).
  destruct (aggregate_closed_form cfg w (tks1 ++ tks2) stats_init)
    as (C1 & C2 & C3 & C4 & C5).
  destruct (aggregate_sums cfg w tks1 stats_init) as (S1 & S2 & S3).
  destruct (aggregate_sums cfg w (tks1 ++ tks2) stats_init)
    as (T1 & T2 & T3).
  cbv zeta in *. cbn [tokens_added persistent_tokens
    non_self_persistent_tokens censored non_self_censored stats_init orb] in *.
  rewrite count_app in C1, C2, C3. rewrite existsb_app in C4, C5.
  rewrite log_terms_app in T1, T2, T3.
  unfold accumulate in *. rewrite foldl_app in T1, T2, T3.
  rewrite <- S1 in T1. rewrite <- S2 in T2. rewrite <- S3 in T3.
  rewrite A1, A2, A3, A4, A5, B1, B2, B3, B4, B5, C1, C2, C3, C4, C5.
  repeat split; try lia; try assumption;
    destruct (existsb (unobserved cfg) tks1),
      (existsb (unobserved cfg) tks2),
      (seconds_possible w <? min_visible cfg),
      (revisions_processed w <? min_persisted cfg),
      (non_self_processed w <? min_persisted cfg); reflexivity.
Qed.

Lemma dots_replicate cfg tks :
  verbose cfg = true ->
  dots cfg tks = replicate (Z.to_nat (count (retained cfg) tks)) ".".
Proof.
  intros Hv. unfold dots, count. rewrite Hv, Nat2Z.id. apply const_fmap.
  reflexivity.
Qed.

(** X13: what a verbose run writes for a well-formed document: one dot for
    each token counted in [tokens_added], then a newline. *)
Theorem verbose_output (cfg : config) (m pd : gmap string value)
    (ts : list value) (tks : list token) (w : window) (err : stderr) :
  verbose cfg = true ->
  m !! "persistence" = Some (VDict pd) ->
  pd !! "tokens" = Some (VList ts) ->
  read_tokens ts = Some tks -> Forall token_ok tks ->
  read_window pd = Some w ->
  exists st,
    document_stats cfg (VDict m) err =
      (inr st,
       err ++ replicate (Z.to_nat (tokens_added st)) "." ++ [newline]).
Proof.
  intros Hv Hm Hpd Hts Hok Hw. eexists.
  rewrite (document_stats_typed cfg m pd ts tks w err Hm Hpd Hts Hok Hw).
  rewrite Hv, (dots_replicate _ _ Hv).
  destruct (aggregate_closed_form cfg w tks stats_init) as (-> & _).
  reflexivity.
Qed.

Lemma stricter_retained cfg cfg' tk :
  stricter cfg cfg' -> retained cfg' tk = retained cfg tk.
Proof. intros (_ & _ & Hi & He). unfold retained. now rewrite Hi, He. Qed.

Lemma stricter_by_time cfg cfg' tk :
  stricter cfg cfg' -> by_time cfg' tk = true -> by_time cfg tk = true.
Proof.
  intros (_ & Hv & _). unfold by_time. rewrite !Z.leb_le. lia.
Qed.

(** X14: raising a threshold never adds a persistent token and never clears
    a flag.  With the same filter and thresholds that are no lower,
    [tokens_added] is the same, [persistent_tokens] and
    [non_self_persistent_tokens] are no larger, and a censoring flag that was
    set is set. *)
Theorem stricter_thresholds (cfg cfg' : config) (m pd : gmap string value)
    (ts : list value) (tks : list token) (w : window) (err : stderr) :
  stricter cfg cfg' ->
  m !! "persistence" = Some (VDict pd) ->
  pd !! "tokens" = Some (VList ts) ->
  read_tokens ts = Some tks -> Forall token_ok tks ->
  read_window pd = Some w ->
  exists st st' e e',
    document_stats cfg (VDict m) err = (inr st, e) /\
    document_stats cfg' (VDict m) err = (inr st', e') /\
    tokens_added st' = tokens_added st /\
    persistent_tokens st' <= persistent_tokens st /\
    non_self_persistent_tokens st' <= non_self_persistent_tokens st /\
    (censored st = true -> censored st' = true) /\
    (non_self_censored st = true -> non_self_censored st' = true).
Proof.
  intros Hs Hm Hpd Hts Hok Hw.
  eexists _, _, _, _.
  split; [exact (document_stats_typed cfg m pd ts tks w err Hm Hpd Hts Hok Hw)|].
  split; [exact (document_stats_typed cfg' m pd ts tks w err Hm Hpd Hts Hok Hw)|].
  destruct (aggregate_closed_form cfg w tks stats_init)
    as (A1 & A2 & A3 & A4 & A5).
  destruct (aggregate_closed_form cfg' w tks stats_init)
    as (B1 & B2 & B3 & B4 & B5).
  cbv zeta in *. rewrite A1, A2, A3, A4, A5, B1, B2, B3, B4, B5. cbn.
  pose proof Hs as (Hp & Hv & _).
  assert (Hun : forall tk, unobserved cfg tk = true ->
                           unobserved cfg' tk = true).
  { intros tk. unfold unobserved.
    rewrite (stricter_retained _ _ tk Hs).
    destruct (retained cfg tk); [cbn | discriminate].
    rewrite !negb_true_iff. intros Hbt.
    destruct (by_time cfg' tk) eqn:Hbt'; [|reflexivity].
    now rewrite (stricter_by_time _ _ _ Hs Hbt') in Hbt. }
  assert (Hex : existsb (unobserved cfg) tks = true ->
                existsb (unobserved cfg') tks = true).
  { rewrite !existsb_exists. intros (tk & Hin & Htk). eauto. }
  split; [f_equal; apply count_ext; intros tk;
          apply (stricter_retained _ _ tk Hs)|].
  split.
  { apply count_le. intros tk. unfold persistent.
    rewrite (stricter_retained _ _ tk Hs).
    destruct (retained cfg tk); [cbn | discriminate].
    rewrite !orb_true_iff, !Z.leb_le. intros [Hbt|Hle].
    - left. exact (stricter_by_time _ _ _ Hs Hbt).
    - right. lia. }
  split.
  { apply count_le. intros tk. unfold non_self_persistent.
    rewrite (stricter_retained _ _ tk Hs).
    destruct (retained cfg tk); [cbn | discriminate].
    rewrite !orb_true_iff, !Z.leb_le. intros [Hbt|Hle].
    - left. exact (stricter_by_time _ _ _ Hs Hbt).
    - right. lia. }
  split.
  - rewrite !andb_true_iff, !orb_true_iff, !Z.ltb_lt.
    intros [Hx Hor]. split; [auto|]. lia.
  - rewrite !andb_true_iff, !orb_true_iff, !Z.ltb_lt.
    intros [Hx Hor]. split; [auto|]. lia.
Qed.

End Statistics.

(** ** What the pruner and the aggregator read *)

Section Reads.

Context `{MathLib}.

Lemma silent_drop_tokens_doc d : silent (drop_tokens_doc d).
Proof.
  destruct d; try apply silent_raise. cbn.
  destruct (_ !! "persistence") as [[]|];
    try apply silent_raise; apply silent_ret.
Qed.

(** X15: [drop_tokens] on a document without [persistence] raises
    [KeyError('persistence')]: the documents before it are yielded, pruned,
    and the documents after it are not read.  [drop_tokens] writes
    nothing. *)
Theorem drop_tokens_missing_persistence (docs1 docs2 : list value)
    (m : gmap string value) (err : stderr) :
  raised (drop_tokens docs1 err) = None ->
  m !! "persistence" = None ->
  drop_tokens (docs1 ++ VDict m :: docs2) err =
    {| yielded := yielded (drop_tokens docs1 err);
       raised := Some (KeyError "persistence");
       stderr_out := err |}.
Proof.
  unfold drop_tokens. intros Hr Hm. apply generate_stops; [exact Hr|].
  rewrite (generate_silent _ docs1 err silent_drop_tokens_doc).
  unfold drop_tokens_doc. now rewrite Hm.
Qed.

(** X16: the statistics of a document depend on four entries of its
    [persistence] record only: [tokens], [seconds_possible],
    [revisions_processed] and [non_self_processed].  Two documents that agree
    on these get the same statistics, the same exception and the same
    output, whatever their other fields are. *)
Theorem statistics_depend_on (cfg : config) (m1 m2 pd1 pd2 : gmap string value)
    (err : stderr) :
  m1 !! "persistence" = Some (VDict pd1) ->
  m2 !! "persistence" = Some (VDict pd2) ->
  pd1 !! "tokens" = pd2 !! "tokens" ->
  pd1 !! "seconds_possible" = pd2 !! "seconds_possible" ->
  pd1 !! "revisions_processed" = pd2 !! "revisions_processed" ->
  pd1 !! "non_self_processed" = pd2 !! "non_self_processed" ->
  document_stats cfg (VDict m1) err = document_stats cfg (VDict m2) err.
Proof.
  intros H1 H2 Ht Hs Hr Hn. unfold document_stats.
  rewrite (bind_inr _ _ _ _ _ (getitem_Some _ _ _ _ H1)).
  rewrite (bind_inr _ _ _ _ _ (getitem_Some _ _ _ _ H2)).
  unfold bind, getitem. rewrite Ht.
  destruct (pd2 !! "tokens") as [tokens|]; [|reflexivity]. unfold ret at 1 4.
  destruct (py_iter tokens err) as [[e|toks] err1]; [reflexivity|].
  now rewrite (token_loop_agree cfg pd2 pd1 toks stats_init err1 Hs Hr Hn).
Qed.

End Reads.

(** ** The further properties at concrete documents *)

(** A document without [persistence] between two documents of Scenario A. *)
Lemma missing_key_witness :
  generate (persistence2stats_doc (example_config true))
    ([scenario_A] ++ VDict example_fields :: [scenario_A]) [] =
  {| yielded :=
       yielded (generate (persistence2stats_doc (example_config true))
                  [scenario_A] []);
     raised := Some (KeyError "persistence");
     stderr_out := ["."; newline] |}.
Proof.
  exact (missing_key_ends_the_run (example_config true) [scenario_A]
           [scenario_A] example_fields "persistence" [] eq_refl eq_refl).
Defined.

Lemma statistics_are_merged_witness :
  exists d' m m' pd pd',
    persistence2stats_doc (example_config false) scenario_A [] =
      (inr d', []) /\
    scenario_A = VDict m /\ d' = VDict m' /\
    m !! "persistence" = Some (VDict pd) /\
    m' !! "persistence" = Some (VDict pd') /\
    (forall k, k <> "persistence" -> m' !! k = m !! k) /\
    (forall k, k ∉ stats_keys -> pd' !! k = pd !! k) /\
    is_Some (pd' !! "tokens") /\
    Forall (fun k => is_Some (pd' !! k)) stats_keys.
Proof.
  destruct (persistence2stats_doc (example_config false) scenario_A [])
    as [[e|d'] err'] eqn:Hd; [discriminate Hd|].
  assert (He : err' = [])
    by (vm_compute in Hd; now injection Hd).
  subst err'.
  destruct (statistics_are_merged _ _ _ _ _ Hd) as (m & m' & pd & pd' & Hw).
  now exists d', m, m', pd, pd'.
Defined.

Lemma last_run_wins_witness :
  exists d1,
    persistence2stats_doc (example_config true) scenario_A [] =
      (inr d1, ["."; newline]) /\
    persistence2stats_doc scenario_D_config d1 [] =
      persistence2stats_doc scenario_D_config scenario_A [].
Proof.
  destruct (persistence2stats_doc (example_config true) scenario_A [])
    as [[e|d1] e1] eqn:Hd; [discriminate Hd|].
  assert (He : e1 = ["."; newline])
    by (vm_compute in Hd; now injection Hd).
  subst e1. exists d1. split; [reflexivity|].
  exact (last_run_wins _ scenario_D_config _ _ _ _ [] Hd).
Defined.

Lemma drop_tokens_twice_witness :
  drop_tokens (yielded (drop_tokens [scenario_A] [])) [] =
    drop_tokens [scenario_A] [].
Proof. exact (drop_tokens_twice [scenario_A] [] eq_refl). Defined.

(** 1.5 becomes 1 and -1.5 becomes -1. *)
Lemma thresholds_rounded_witness :
  exists zp zv,
    towards_zero SF_1_5 zp /\ towards_zero SF_minus_1_5 zv /\
    persistence2stats [scenario_A] (Float SF_1_5) (Float SF_minus_1_5)
      None None true [] =
    persistence2stats [scenario_A] (Int zp) (Int zv) None None true [].
Proof.
  exact (thresholds_are_rounded_towards_zero [scenario_A] SF_1_5
           SF_minus_1_5 None None true [] eq_refl eq_refl).
Defined.

Lemma threshold_not_finite_witness :
  persistence2stats [scenario_A] (Float SF_inf) (Int 36000) None None true [] =
    {| yielded := []; raised := Some OverflowError; stderr_out := [] |} /\
  persistence2stats [scenario_A] (Int 5) (Float SF_inf) None None true [] =
    {| yielded := []; raised := Some OverflowError; stderr_out := [] |}.
Proof.
  exact (threshold_not_finite [scenario_A] SF_inf (Int 36000) 5 None None
           true [] eq_refl).
Defined.

Lemma negative_number_witness :
  token_loop (example_config true) VNone [example_token "x" (-1) 0 0]
    stats_init [] = (inl ValueError, ["."]).
Proof.
  assert (Hbad : ~ token_ok {| text := VStr "x"; persisted := -1;
                               non_self_persisted := 0;
                               seconds_visible := 0 |})
    by (unfold token_ok; cbn; lia).
  exact (negative_number_raises (example_config true) VNone
           (example_token "x" (-1) 0 0) _ [] stats_init []
           eq_refl eq_refl Hbad).
Defined.

(** A window without [seconds_possible]: the first token was visible for
    40000 seconds, the second for none. *)
Lemma window_on_demand_witness :
  (exists st',
     token_loop (example_config false)
       (VDict (<["revisions_processed" := VInt 6]> ∅))
       [example_token "x" 0 0 40000] stats_init [] = (inr st', []) /\
     censored st' = false /\ non_self_censored st' = false /\
     persistent_tokens st' = 1) /\
  (exists err',
     token_loop (example_config false)
       (VDict (<["revisions_processed" := VInt 6]> ∅))
       [example_token "x" 0 0 40000; example_token "y" 0 0 0] stats_init [] =
     (inl (KeyError "seconds_possible"), err')).
Proof.
  split.
  - destruct (proj1 (window_is_read_on_demand (example_config false)
                (<["revisions_processed" := VInt 6]> ∅)
                [example_token "x" 0 0 40000]
                [{| text := VStr "x"; persisted := 0; non_self_persisted := 0;
                    seconds_visible := 40000 |}]
                stats_init [] eq_refl
                ltac:(repeat constructor; cbn; lia) eq_refl)
              ltac:(repeat constructor))
      as (st' & Hloop & Hc & Hn & _ & Hp & _).
    exists st'. now repeat split.
  - apply (proj2 (window_is_read_on_demand (example_config false)
                (<["revisions_processed" := VInt 6]> ∅)
                [example_token "x" 0 0 40000; example_token "y" 0 0 0]
                [{| text := VStr "x"; persisted := 0; non_self_persisted := 0;
                    seconds_visible := 40000 |};
                 {| text := VStr "y"; persisted := 0; non_self_persisted := 0;
                    seconds_visible := 0 |}]
                stats_init [] eq_refl
                ltac:(repeat constructor; cbn; lia) eq_refl)).
    apply Exists_cons_tl, Exists_cons_hd. reflexivity.
Defined.

Lemma statistics_closed_form_witness :
  exists st err',
    document_stats (example_config false) scenario_A [] = (inr st, err') /\
    tokens_added st = 1 /\ persistent_tokens st = 1 /\
    non_self_persistent_tokens st = 0 /\
    censored st = false /\ non_self_censored st = true.
Proof.
  exact (statistics_closed_form (example_config false)
           (<["persistence" := VDict (example_persistence
                [example_token "x" 6 2 100] 40000 6 3)]> example_fields)
           (example_persistence [example_token "x" 6 2 100] 40000 6 3)
           [example_token "x" 6 2 100]
           [{| text := VStr "x"; persisted := 6; non_self_persisted := 2;
               seconds_visible := 100 |}]
           {| seconds_possible := 40000; revisions_processed := 6;
              non_self_processed := 3 |}
           [] eq_refl eq_refl eq_refl
           ltac:(repeat constructor; cbn; lia) eq_refl).
Defined.

Lemma concatenated_tokens_witness :
  exists s1 s2 s e1 e2 e,
    token_loop (example_config false)
      (VDict (example_persistence [] 40000 6 3))
      [example_token "a" 1 0 0] stats_init [] = (inr s1, e1) /\
    token_loop (example_config false)
      (VDict (example_persistence [] 40000 6 3))
      [example_token "c" 5 0 0] stats_init [] = (inr s2, e2) /\
    token_loop (example_config false)
      (VDict (example_persistence [] 40000 6 3))
      ([example_token "a" 1 0 0] ++ [example_token "c" 5 0 0])
      stats_init [] = (inr s, e) /\
    tokens_added s = tokens_added s1 + tokens_added s2 /\
    persistent_tokens s = persistent_tokens s1 + persistent_tokens s2 /\
    censored s = censored s1 || censored s2.
Proof.
  destruct (concatenated_tokens (example_config false)
              (example_persistence [] 40000 6 3)
              {| seconds_possible := 40000; revisions_processed := 6;
                 non_self_processed := 3 |}
              [example_token "a" 1 0 0] [example_token "c" 5 0 0]
              [{| text := VStr "a"; persisted := 1; non_self_persisted := 0;
                  seconds_visible := 0 |}]
              [{| text := VStr "c"; persisted := 5; non_self_persisted := 0;
                  seconds_visible := 0 |}]
              [] eq_refl eq_refl ltac:(repeat constructor; cbn; lia)
              eq_refl ltac:(repeat constructor; cbn; lia))
    as (s1 & s2 & s & e1 & e2 & e & H1 & H2 & H3 & H4 & H5 & _ & H7 & _).
  exists s1, s2, s, e1, e2, e. now repeat split.
Defined.

Lemma verbose_output_witness :
  exists st,
    document_stats (example_config true) scenario_A [] =
      (inr st, [] ++ replicate (Z.to_nat (tokens_added st)) "." ++ [newline]).
Proof.
  exact (verbose_output (example_config true)
           (<["persistence" := VDict (example_persistence
                [example_token "x" 6 2 100] 40000 6 3)]> example_fields)
           (example_persistence [example_token "x" 6 2 100] 40000 6 3)
           [example_token "x" 6 2 100]
           [{| text := VStr "x"; persisted := 6; non_self_persisted := 2;
               seconds_visible := 100 |}]
           {| seconds_possible := 40000; revisions_processed := 6;
              non_self_processed := 3 |}
           [] eq_refl eq_refl eq_refl eq_refl
           ltac:(repeat constructor; cbn; lia) eq_refl).
Defined.

(** Scenario A with [min_persisted] raised from 5 to 7: the token with
    [persisted = 6] is not persistent any more. *)
Lemma stricter_thresholds_witness :
  exists st st' e e',
    document_stats (example_config false) scenario_A [] = (inr st, e) /\
    document_stats
      {| min_persisted := 7; min_visible := 36000;
         include := fun _ => true; exclude := fun _ => false;
         verbose := false |} scenario_A [] = (inr st', e') /\
    tokens_added st' = tokens_added st /\
    persistent_tokens st' <= persistent_tokens st /\
    non_self_persistent_tokens st' <= non_self_persistent_tokens st /\
    (censored st = true -> censored st' = true) /\
    (non_self_censored st = true -> non_self_censored st' = true).
Proof.
  apply (stricter_thresholds (example_config false) _
           (<["persistence" := VDict (example_persistence
                [example_token "x" 6 2 100] 40000 6 3)]> example_fields)
           (example_persistence [example_token "x" 6 2 100] 40000 6 3)
           [example_token "x" 6 2 100]
           [{| text := VStr "x"; persisted := 6; non_self_persisted := 2;
               seconds_visible := 100 |}]
           {| seconds_possible := 40000; revisions_processed := 6;
              non_self_processed := 3 |} []); try reflexivity.
  - unfold stricter; cbn. repeat split; lia.
  - repeat constructor; cbn; lia.
Defined.

Lemma drop_tokens_missing_persistence_witness :
  drop_tokens ([scenario_A] ++ VDict example_fields :: [scenario_A]) [] =
    {| yielded := yielded (drop_tokens [scenario_A] []);
       raised := Some (KeyError "persistence");
       stderr_out := [] |}.
Proof.
  exact (drop_tokens_missing_persistence [scenario_A] [scenario_A]
           example_fields [] eq_refl eq_refl).
Defined.

(** Scenario A, and its [persistence] in a document with no other field and
    one more entry. *)
Lemma statistics_depend_on_witness :
  document_stats (example_config true) scenario_A [] =
  document_stats (example_config true)
    (VDict (<["persistence" := VDict (<["note" := VNone]>
              (example_persistence [example_token "x" 6 2 100] 40000 6 3))]>
            ∅)) [].
Proof.
  exact (statistics_depend_on (example_config true)
           (<["persistence" := VDict (example_persistence
                [example_token "x" 6 2 100] 40000 6 3)]> example_fields)
           (<["persistence" := VDict (<["note" := VNone]>
                (example_persistence [example_token "x" 6 2 100] 40000 6 3))]>
              ∅)
           (example_persistence [example_token "x" 6 2 100] 40000 6 3)
           (<["note" := VNone]>
              (example_persistence [example_token "x" 6 2 100] 40000 6 3))
           [] eq_refl eq_refl eq_refl eq_refl eq_refl eq_refl).
Defined.
